(** * StrophenBoost chat and stream client (static/js/stream.js)

    A shallow embedding of the chat client and of the stream-room helpers,
    and the properties of their behaviour.

    - [JS]      strings (UTF-16 code units), primitive values, coercions
    - [DOM]     the fragment of the document the script builds and
                queries, the [innerHTML] setter (fragment parser) and
                getter
    - [Stream]  joinStreamRoom / leaveStreamRoom / the beforeunload handler
    - [Chat]    sendChatMessage, addChatMessage, removeMessage and the
                socket handlers registered by initializeChat, on the
                document as written
    - [Browser] addChatMessage, addSystemMessage, showAlert and their
                listeners on the parsed document
    - [Player]  the player status line, quality label and notifications *)

From Stdlib Require Import List NArith ZArith Bool String Ascii Lia.
From Stdlib Require Import DecimalString.
Import ListNotations.

Set Implicit Arguments.
Local Set Warnings "-register-all".
Local Open Scope string_scope.
Local Open Scope list_scope.

(* ================================================================== *)
(** ** JavaScript strings and primitive values *)
(* ================================================================== *)

Module JS.

(** A string is its sequence of UTF-16 code units; [s.length] is the
    length of that sequence. *)
Definition code_unit := N.
Definition jsstring := list code_unit.

(** A literal of the source (ASCII only). *)
Definition lit (s : string) : jsstring :=
  List.map N_of_ascii (list_ascii_of_string s).

(** WhiteSpace and LineTerminator code points, the ones
    [String.prototype.trim] strips. *)
Definition isWhiteSpace (c : code_unit) : bool :=
  match c with
  | 9 | 10 | 11 | 12 | 13 | 32 | 160
  | 5760 | 8232 | 8233 | 8239 | 8287 | 12288 | 65279 => true
  | _ => (8192 <=? c) && (c <=? 8202)
  end%N.

Fixpoint trimStart (s : jsstring) : jsstring :=
  match s with
  | [] => []
  | c :: r => if isWhiteSpace c then trimStart r else s
  end.

Definition trimEnd (s : jsstring) : jsstring := rev (trimStart (rev s)).

Definition trim (s : jsstring) : jsstring := trimEnd (trimStart s).

(** Primitive values.  A number is modelled by the integer it denotes
    (identifiers, counts and millisecond timestamps); NaN, infinities
    and fractions are outside the model. *)
Inductive value : Type :=
| Undefined
| Null
| Bool (b : bool)
| Number (z : Z)
| Str (s : jsstring).

(** ToBoolean. *)
Definition truthy (v : value) : bool :=
  match v with
  | Undefined | Null => false
  | Bool b => b
  | Number z => negb (z =? 0)%Z
  | Str s => match s with [] => false | _ :: _ => true end
  end.

(** [a || b]. *)
Definition or_else (a b : value) : value := if truthy a then a else b.

(** The integers that a Number holds exactly, each with its own
    shortest numeral: those up to [Number.MAX_SAFE_INTEGER] in
    magnitude. *)
Definition safe_integer (z : Z) : Prop :=
  (Z.abs z <= 9007199254740991)%Z.

(** Number::toString for a safe integer: the decimal numeral.  Beyond
    that range the numeral of a Number is the shortest one that reads
    back as the same Number, in exponent form from 10^21 on; the
    statements that depend on a numeral assume [safe_integer]. *)
Definition string_of_Z (z : Z) : jsstring :=
  lit (NilZero.string_of_int (Z.to_int z)).

(** ToString, as applied by template literals and by [+] on a string. *)
Definition ToString (v : value) : jsstring :=
  match v with
  | Undefined => lit "undefined"
  | Null => lit "null"
  | Bool true => lit "true"
  | Bool false => lit "false"
  | Number z => string_of_Z z
  | Str s => s
  end.

Fixpoint jsstring_eqb (a b : jsstring) : bool :=
  match a, b with
  | [], [] => true
  | x :: a', y :: b' => (x =? y)%N && jsstring_eqb a' b'
  | _, _ => false
  end.

(** [a === b]. *)
Definition strict_eq (a b : value) : bool :=
  match a, b with
  | Undefined, Undefined => true
  | Null, Null => true
  | Bool x, Bool y => Bool.eqb x y
  | Number x, Number y => (x =? y)%Z
  | Str x, Str y => jsstring_eqb x y
  | _, _ => false
  end.

(** Outcome of running a statement sequence on a state: normal
    completion, or a TypeError thrown with the state reached so far. *)
Inductive result (S : Type) : Type :=
| Ok (s : S)
| Throw (s : S).

Arguments Ok {S} s.
Arguments Throw {S} s.

Definition bind {S : Type} (r : result S) (k : S -> result S) : result S :=
  match r with
  | Ok s => k s
  | Throw s => Throw s
  end.

Definition state_of {S : Type} (r : result S) : S :=
  match r with Ok s | Throw s => s end.

End JS.

Notation "r >>= k" := (JS.bind r k) (at level 50, left associativity).

Import JS.

(* ================================================================== *)
(** ** The document fragment the scripts build and query *)
(* ================================================================== *)

Module DOM.

(** A node is a text node, an element, or markup kept as the string
    that was written ([Raw]).  [Chat] keeps in this form what a
    template interpolates, and represents the literal part of a
    template by the elements it denotes, without the white space
    between its tags; [Browser] parses what is assigned to [innerHTML]
    and keeps in this form only markup that the parser below does not
    cover. *)
Inductive node : Type :=
| Text (data : jsstring)
| Raw (markup : jsstring)
| Elem (tag : string) (attrs : list (string * jsstring)) (children : list node).

Definition attributes := list (string * jsstring).

Definition createElement (tag : string) : node := Elem tag [] [].

Fixpoint getAttribute (name : string) (a : attributes) : option jsstring :=
  match a with
  | [] => None
  | (k, v) :: r => if String.eqb k name then Some v else getAttribute name r
  end.

Fixpoint setAttribute (name : string) (v : jsstring) (a : attributes) : attributes :=
  match a with
  | [] => [(name, v)]
  | (k, w) :: r =>
      if String.eqb k name then (k, v) :: r else (k, w) :: setAttribute name v r
  end.

(** [element.dataset.messageId] reads the attribute data-message-id;
    an absent attribute reads as [undefined]. *)
Definition dataset (name : string) (a : attributes) : value :=
  match getAttribute (String.append "data-" name) a with
  | Some v => Str v
  | None => Undefined
  end.

(** *** Class tokens *)

Definition isAsciiWhitespace (c : code_unit) : bool :=
  match c with
  | 9 | 10 | 12 | 13 | 32 => true
  | _ => false
  end%N.

(** Split on ASCII white space; [cur] is the token being read, reversed. *)
Fixpoint split_tokens (cur : jsstring) (s : jsstring) : list jsstring :=
  match s with
  | [] => match cur with [] => [] | _ => [rev cur] end
  | c :: r =>
      if isAsciiWhitespace c
      then match cur with
           | [] => split_tokens [] r
           | _ => rev cur :: split_tokens [] r
           end
      else split_tokens (c :: cur) r
  end.

Definition tokens_contain (t : jsstring) (l : list jsstring) : bool :=
  existsb (jsstring_eqb t) l.

(** Ordered set: the first occurrence of each token. *)
Fixpoint ordered_set (seen : list jsstring) (l : list jsstring) : list jsstring :=
  match l with
  | [] => rev seen
  | t :: r =>
      if tokens_contain t seen then ordered_set seen r
      else ordered_set (t :: seen) r
  end.

Definition classList (a : attributes) : list jsstring :=
  match getAttribute "class" a with
  | Some v => ordered_set [] (split_tokens [] v)
  | None => []
  end.

Fixpoint join_tokens (l : list jsstring) : jsstring :=
  match l with
  | [] => []
  | [t] => t
  | t :: r => t ++ 32%N :: join_tokens r
  end.

(** [element.classList.add(token)]: the token joins the set and the
    class attribute is rewritten from the set. *)
Definition classList_add (t : jsstring) (a : attributes) : attributes :=
  let set := classList a in
  let set' := if tokens_contain t set then set else set ++ [t] in
  setAttribute "class" (join_tokens set') a.

Definition set_children (c : list node) (n : node) : node :=
  match n with
  | Elem tag a _ => Elem tag a c
  | _ => n
  end.

Definition set_attrs (a : list (string * jsstring)) (n : node) : node :=
  match n with
  | Elem tag _ c => Elem tag a c
  | _ => n
  end.

Definition children_of (n : node) : list node :=
  match n with
  | Elem _ _ c => c
  | _ => []
  end.

Definition attrs_of (n : node) : attributes :=
  match n with
  | Elem _ a _ => a
  | _ => []
  end.

(** *** Selectors: [.class] and [tag] *)

Inductive selector : Type :=
| ByClass (c : jsstring)
| ByTag (t : string).

Definition matches (sel : selector) (n : node) : bool :=
  match n with
  | Elem tag a _ =>
      match sel with
      | ByClass c => tokens_contain c (classList a)
      | ByTag t => String.eqb tag t
      end
  | _ => false
  end.

Section FirstMatch.
Variable A : Type.
Variable f : A -> option A.

(** Rewrite the first member of the list on which [f] applies. *)
Definition first_some : list A -> option (list A) :=
  fix go (l : list A) : option (list A) :=
    match l with
    | [] => None
    | x :: r =>
        match f x with
        | Some x' => Some (x' :: r)
        | None => option_map (cons x) (go r)
        end
    end.
End FirstMatch.

(** Rewrite, with [upd], the first node in document order, among [n]
    and its descendants, that matches [sel]. *)
Fixpoint update_first (sel : selector) (upd : node -> node) (n : node) : option node :=
  match n with
  | Elem tag a c =>
      if matches sel n then Some (upd n)
      else option_map (Elem tag a) (first_some (update_first sel upd) c)
  | _ => None
  end.

Section FirstFound.
Variable A B : Type.
Variable f : A -> option B.

Definition find_some : list A -> option B :=
  fix go (l : list A) : option B :=
    match l with
    | [] => None
    | x :: r =>
        match f x with
        | Some y => Some y
        | None => go r
        end
    end.
End FirstFound.

(** The first node in document order, among [n] and its descendants,
    that matches [sel]. *)
Fixpoint first_match (sel : selector) (n : node) : option node :=
  match n with
  | Elem _ _ c =>
      if matches sel n then Some n else find_some (first_match sel) c
  | _ => None
  end.

(** The elements matching [sel] among [n] and its descendants, in
    document order. *)
Fixpoint subtree_matches (sel : selector) (n : node) : list node :=
  match n with
  | Elem _ _ c =>
      (if matches sel n then [n] else []) ++ flat_map (subtree_matches sel) c
  | _ => []
  end.

(** [element.querySelectorAll(sel)], given the children of the element. *)
Definition querySelectorAll (sel : selector) (children : list node) : list node :=
  flat_map (subtree_matches sel) children.

(** [element.querySelector(sel)]: the search runs over the descendants
    of the element. *)
Definition querySelector (sel : selector) (n : node) : option node :=
  find_some (first_match sel) (children_of n).

(** [element.querySelector(sel)] followed by an update of the node
    found: the search runs over the descendants of the element; [None]
    when [querySelector] returns null. *)
Definition update_querySelector (sel : selector) (upd : node -> node) (n : node)
  : option node :=
  match n with
  | Elem tag a c => option_map (Elem tag a) (first_some (update_first sel upd) c)
  | _ => None
  end.

(** [element.setAttribute(name, v)]; [className] and [style.cssText]
    are the attributes class and style. *)
Definition element_setAttribute (name : string) (v : jsstring) (n : node) : node :=
  set_attrs (setAttribute name v (attrs_of n)) n.

Definition element_classList_add (t : jsstring) (n : node) : node :=
  set_attrs (classList_add t (attrs_of n)) n.

(** *** [textContent] and [innerHTML] *)

(** The [textContent] setter takes a nullable string: null and
    undefined empty the element, any other value is converted by
    ToString; an empty string leaves no text node. *)
Definition textContent_string (v : value) : jsstring :=
  match v with
  | Undefined | Null => []
  | _ => ToString v
  end.

Definition set_textContent (v : value) (n : node) : node :=
  match textContent_string v with
  | [] => set_children [] n
  | s => set_children [Text s] n
  end.

(** Escaping of character data by the HTML fragment serialisation. *)
Definition escape_unit (c : code_unit) : jsstring :=
  if (c =? 38)%N then lit "&amp;"
  else if (c =? 160)%N then lit "&nbsp;"
  else if (c =? 60)%N then lit "&lt;"
  else if (c =? 62)%N then lit "&gt;"
  else [c].

Definition escape_text (s : jsstring) : jsstring := flat_map escape_unit s.

Definition escape_attr_unit (c : code_unit) : jsstring :=
  if (c =? 38)%N then lit "&amp;"
  else if (c =? 160)%N then lit "&nbsp;"
  else if (c =? 34)%N then lit "&quot;"
  else [c].

Definition serialize_attrs (a : attributes) : jsstring :=
  flat_map (fun kv => lit " " ++ lit (fst kv) ++ lit "=" ++ [34%N] ++
                      flat_map escape_attr_unit (snd kv) ++ [34%N]) a.

(** *** Reading character data back

    The text that markup without tags denotes: the four character
    references of [escape_unit] are decoded ([skip] counts the code
    units of a reference still to pass over). *)
Fixpoint starts_with (p s : jsstring) : bool :=
  match p, s with
  | [], _ => true
  | _ :: _, [] => false
  | a :: p', b :: s' => (a =? b)%N && starts_with p' s'
  end.

Fixpoint text_of_markup_from (skip : nat) (s : jsstring) : jsstring :=
  match s with
  | [] => []
  | c :: r =>
      match skip with
      | S k => text_of_markup_from k r
      | O =>
          if (c =? 38)%N then
            if starts_with (lit "amp;") r then 38%N :: text_of_markup_from 4 r
            else if starts_with (lit "nbsp;") r then 160%N :: text_of_markup_from 5 r
            else if starts_with (lit "lt;") r then 60%N :: text_of_markup_from 3 r
            else if starts_with (lit "gt;") r then 62%N :: text_of_markup_from 3 r
            else c :: text_of_markup_from 0 r
          else c :: text_of_markup_from 0 r
      end
  end.

Definition text_of_markup (s : jsstring) : jsstring := text_of_markup_from 0 s.

(** *** The [innerHTML] setter: the HTML fragment parser

    The setter hands the string to the HTML parser, which never fails:
    it repairs whatever it is given.  The parser below is the HTML
    parser on the markup for which no repair is needed, and gives no
    answer ([None]) on any other string:

    - tags are written in full, [<name attr="value" ...>] and
      [</name>], names in lower case, attribute values in double
      quotes and free of [&];
    - elements are closed in the order they were opened, and are among
      the ordinary elements the scripts use (no void, raw-text, table
      or list element);
    - no [div] or [p] starts while a [p] is open and no [button] while
      a [button] is open (the HTML parser would close the open one);
    - no attribute name occurs twice in a tag and none is [id] (the
      scripts reach their own elements by id);
    - an ampersand in text starts one of the four references that
      [escape_unit] writes, or is followed by no letter, digit or [#];
    - U+0000 and carriage return do not occur (the HTML parser drops
      the first and turns the second into a line feed).

    The states and their names are those of the HTML tokenizer. *)

Definition is_lower_alpha (c : code_unit) : bool :=
  ((97 <=? c) && (c <=? 122))%N.

Definition is_alphanumeric (c : code_unit) : bool :=
  (((48 <=? c) && (c <=? 57)) || ((65 <=? c) && (c <=? 90))
   || ((97 <=? c) && (c <=? 122)))%N.

Definition is_name_unit (c : code_unit) : bool :=
  (is_lower_alpha c || ((48 <=? c) && (c <=? 57)) || (c =? 45))%N.

(** White space inside a tag (carriage returns do not reach the
    tokenizer). *)
Definition is_tag_space (c : code_unit) : bool :=
  match c with
  | 9 | 10 | 12 | 32 => true
  | _ => false
  end%N.

Inductive token : Type :=
| Characters (data : jsstring)
| StartTag (name : jsstring) (attrs : list (jsstring * jsstring))
| EndTag (name : jsstring).

Inductive tokenizer_state : Type :=
| Data (text : jsstring)
| TagOpen
| TagName (name : jsstring)
| EndTagOpen
| EndTagName (name : jsstring)
| BeforeAttributeName (tag : jsstring) (attrs : list (jsstring * jsstring))
| AttributeName (tag : jsstring) (attrs : list (jsstring * jsstring))
                (name : jsstring)
| BeforeAttributeValue (tag : jsstring) (attrs : list (jsstring * jsstring))
                       (name : jsstring)
| AttributeValue (tag : jsstring) (attrs : list (jsstring * jsstring))
                 (name value : jsstring)
| AfterAttributeValue (tag : jsstring) (attrs : list (jsstring * jsstring)).

(** One code unit: the next state and the token emitted, if any.  The
    text read in the data state is emitted, as one token, when a tag
    starts. *)
Definition step (st : tokenizer_state) (c : code_unit)
  : option (tokenizer_state * option token) :=
  if ((c =? 0) || (c =? 13))%N then None
  else
    match st with
    | Data text =>
        if (c =? 60)%N then Some (TagOpen, Some (Characters text))
        else Some (Data (text ++ [c]), None)
    | TagOpen =>
        if (c =? 47)%N then Some (EndTagOpen, None)
        else if is_lower_alpha c then Some (TagName [c], None)
        else None
    | TagName name =>
        if is_name_unit c then Some (TagName (name ++ [c]), None)
        else if is_tag_space c then Some (BeforeAttributeName name [], None)
        else if (c =? 62)%N then Some (Data [], Some (StartTag name []))
        else None
    | EndTagOpen =>
        if is_lower_alpha c then Some (EndTagName [c], None) else None
    | EndTagName name =>
        if is_name_unit c then Some (EndTagName (name ++ [c]), None)
        else if (c =? 62)%N then Some (Data [], Some (EndTag name))
        else None
    | BeforeAttributeName tag attrs =>
        if is_tag_space c then Some (BeforeAttributeName tag attrs, None)
        else if (c =? 62)%N then Some (Data [], Some (StartTag tag attrs))
        else if is_name_unit c then Some (AttributeName tag attrs [c], None)
        else None
    | AttributeName tag attrs name =>
        if is_name_unit c then Some (AttributeName tag attrs (name ++ [c]), None)
        else if (c =? 61)%N then Some (BeforeAttributeValue tag attrs name, None)
        else None
    | BeforeAttributeValue tag attrs name =>
        if (c =? 34)%N then Some (AttributeValue tag attrs name [], None)
        else None
    | AttributeValue tag attrs name value =>
        if (c =? 34)%N
        then Some (AfterAttributeValue tag (attrs ++ [(name, value)]), None)
        else if (c =? 38)%N then None
        else Some (AttributeValue tag attrs name (value ++ [c]), None)
    | AfterAttributeValue tag attrs =>
        if is_tag_space c then Some (BeforeAttributeName tag attrs, None)
        else if (c =? 62)%N then Some (Data [], Some (StartTag tag attrs))
        else None
    end.

Definition emit_token (out : list token) (t : option token) : list token :=
  match t with
  | Some t => out ++ [t]
  | None => out
  end.

(** The tokenizer over a string; [out] holds the tokens emitted so
    far. *)
Fixpoint run (st : tokenizer_state) (out : list token) (s : jsstring)
  : option (tokenizer_state * list token) :=
  match s with
  | [] => Some (st, out)
  | c :: r =>
      match step st c with
      | None => None
      | Some (st', t) => run st' (emit_token out t) r
      end
  end.

(** The input must end in the data state, outside any tag. *)
Definition tokenize (s : jsstring) : option (list token) :=
  match run (Data []) [] s with
  | Some (Data text, out) => Some (out ++ [Characters text])
  | _ => None
  end.

(** Character references in text. *)
Fixpoint decode_from (skip : nat) (s : jsstring) : option jsstring :=
  match s with
  | [] => Some []
  | c :: r =>
      match skip with
      | S k => decode_from k r
      | O =>
          if (c =? 38)%N then
            if starts_with (lit "amp;") r
            then option_map (cons 38%N) (decode_from 4 r)
            else if starts_with (lit "nbsp;") r
            then option_map (cons 160%N) (decode_from 5 r)
            else if starts_with (lit "lt;") r
            then option_map (cons 60%N) (decode_from 3 r)
            else if starts_with (lit "gt;") r
            then option_map (cons 62%N) (decode_from 3 r)
            else
              match r with
              | [] => Some [c]
              | d :: _ =>
                  if is_alphanumeric d || (d =? 35)%N then None
                  else option_map (cons c) (decode_from 0 r)
              end
          else option_map (cons c) (decode_from 0 r)
      end
  end.

Definition decode_text (s : jsstring) : option jsstring := decode_from 0 s.

(** Tree construction.  An open element collects its children until
    its end tag; the fragment itself is the outermost one. *)
Record open_element : Type := OpenElement {
  oe_tag : jsstring;
  oe_attrs : list (jsstring * jsstring);
  oe_children : list node
}.

Definition ordinary_elements : list jsstring :=
  [lit "div"; lit "span"; lit "p"; lit "strong"; lit "small"; lit "em";
   lit "b"; lit "i"; lit "button"].

Definition is_open (tag : jsstring) (stack : list open_element) : bool :=
  existsb (fun e => jsstring_eqb tag (oe_tag e)) stack.

Fixpoint distinct_names (seen : list jsstring) (attrs : list (jsstring * jsstring))
  : bool :=
  match attrs with
  | [] => true
  | (k, _) :: r => negb (tokens_contain k seen) && distinct_names (k :: seen) r
  end.

Definition admissible (name : jsstring) (attrs : list (jsstring * jsstring))
    (stack : list open_element) : bool :=
  tokens_contain name ordinary_elements
  && distinct_names [lit "id"] attrs
  && negb ((jsstring_eqb name (lit "div") || jsstring_eqb name (lit "p"))
           && is_open (lit "p") stack)
  && negb (jsstring_eqb name (lit "button") && is_open (lit "button") stack).

Definition string_of_units (s : jsstring) : string :=
  string_of_list_ascii (List.map ascii_of_N s).

Definition element_of (e : open_element) : node :=
  Elem (string_of_units (oe_tag e))
       (List.map (fun kv => (string_of_units (fst kv), snd kv)) (oe_attrs e))
       (oe_children e).

Definition append_children (c : list node) (e : open_element) : open_element :=
  OpenElement (oe_tag e) (oe_attrs e) (oe_children e ++ c).

(** Text becomes one text node; no text, no node. *)
Definition text_nodes (s : jsstring) : list node :=
  match s with
  | [] => []
  | _ :: _ => [Text s]
  end.

Fixpoint construct (toks : list token) (current : open_element)
    (outer : list open_element) : option (list node) :=
  match toks with
  | [] =>
      match outer with
      | [] => Some (oe_children current)
      | _ :: _ => None
      end
  | Characters data :: r =>
      match decode_text data with
      | None => None
      | Some t => construct r (append_children (text_nodes t) current) outer
      end
  | StartTag name attrs :: r =>
      if admissible name attrs (current :: outer)
      then construct r (OpenElement name attrs []) (current :: outer)
      else None
  | EndTag name :: r =>
      match outer with
      | [] => None
      | parent :: outer' =>
          if jsstring_eqb (oe_tag current) name
          then construct r (append_children [element_of current] parent) outer'
          else None
      end
  end.

Definition parse_fragment (markup : jsstring) : option (list node) :=
  match tokenize markup with
  | None => None
  | Some toks => construct toks (OpenElement [] [] []) []
  end.

(** [element.innerHTML = markup]: the children the element gets.
    Markup on which [parse_fragment] gives no answer is kept as written
    ([Raw]): what the page then holds is outside the model. *)
Definition set_innerHTML (markup : jsstring) : list node :=
  match parse_fragment markup with
  | Some nodes => nodes
  | None => [Raw markup]
  end.

(** *** The [innerHTML] and [textContent] getters *)

Section Getters.

(** What a piece of markup kept as written reads as. *)
Variable raw : jsstring -> jsstring.

(** Serialisation of a node (ordinary elements only: the scripts
    create no void and no raw-text element). *)
Fixpoint serialize_with (n : node) : jsstring :=
  match n with
  | Text s => escape_text s
  | Raw m => raw m
  | Elem tag a c =>
      lit "<" ++ lit tag ++ serialize_attrs a ++ lit ">" ++
      flat_map serialize_with c ++
      lit "</" ++ lit tag ++ lit ">"
  end.

Fixpoint text_with (n : node) : jsstring :=
  match n with
  | Text s => s
  | Raw m => raw m
  | Elem _ _ c => flat_map text_with c
  end.

End Getters.

(** Markup kept as written is read through the nodes it parses to. *)
Definition serialize (n : node) : jsstring :=
  serialize_with
    (fun m => match parse_fragment m with
              | Some nodes => flat_map (serialize_with (fun m => m)) nodes
              | None => m
              end) n.

(** The [innerHTML] getter. *)
Definition innerHTML (n : node) : jsstring := flat_map serialize (children_of n).

(** The [textContent] getter. *)
Definition textContent (n : node) : jsstring :=
  text_with
    (fun m => match parse_fragment m with
              | Some nodes => flat_map (text_with (fun m => m)) nodes
              | None => m
              end) n.

(** *** Removing the first match *)

Section FirstRemoved.
Variable A : Type.
Variable here : A -> bool.
Variable below : A -> option A.

(** The list without the first thing found: a member on which [here]
    holds leaves, a member that [below] rewrites is replaced. *)
Definition remove_some : list A -> option (list A) :=
  fix go (l : list A) : option (list A) :=
    match l with
    | [] => None
    | x :: r =>
        if here x then Some r
        else match below x with
             | Some x' => Some (x' :: r)
             | None => option_map (cons x) (go r)
             end
    end.
End FirstRemoved.

(** [n] without the first of its descendants, in document order, that
    matches [sel]; [None] when there is none. *)
Fixpoint remove_below (sel : selector) (n : node) : option node :=
  match n with
  | Elem tag a c =>
      option_map (Elem tag a) (remove_some (matches sel) (remove_below sel) c)
  | _ => None
  end.

(** [element.querySelectorAll(sel)[0].remove()], on the children of the
    element; [None] when the list is empty (a TypeError). *)
Definition remove_first_match (sel : selector) (children : list node)
  : option (list node) :=
  remove_some (matches sel) (remove_below sel) children.

End DOM.

Import DOM.

(* ================================================================== *)
(** ** Socket.IO: what the client emits *)
(* ================================================================== *)

Module Socket.

(** One [socket.emit(name, data)]; the data object by its fields. *)
Record emitted : Type := Emit {
  ev_name : string;
  ev_data : list (string * value)
}.

(** A socket, by the events emitted on it so far (oldest first). *)
Definition outbox := list emitted.

Definition is_event (name : string) (e : emitted) : bool :=
  String.eqb (ev_name e) name.

Definition count_events (name : string) (o : outbox) : nat :=
  List.length (filter (is_event name) o).

End Socket.

Import Socket.

(* ================================================================== *)
(** ** Stream page: joining and leaving the stream room *)
(* ================================================================== *)

Module Stream.

Record player : Type := Player { disposed : bool }.

(** The globals of the stream script and [window.sessionUsername]. *)
Record state : Type := State {
  socket : option outbox;        (* None: [socket] is null *)
  currentStreamId : value;
  sessionUsername : value;
  videoPlayer : option player
}.

Definition with_socket (o : option outbox) (st : state) : state :=
  State o (currentStreamId st) (sessionUsername st) (videoPlayer st).

Definition with_currentStreamId (v : value) (st : state) : state :=
  State (socket st) v (sessionUsername st) (videoPlayer st).

Definition with_videoPlayer (p : option player) (st : state) : state :=
  State (socket st) (currentStreamId st) (sessionUsername st) p.

(** [socket.emit(name, data)]; a TypeError when [socket] is null. *)
Definition emit (name : string) (data : list (string * value)) (st : state)
  : result state :=
  match socket st with
  | None => Throw st
  | Some o => Ok (with_socket (Some (o ++ [Emit name data])) st)
  end.

(** [joinStreamRoom(streamId)]; [rnd] stands for the text of
    [Math.random().toString(36).substr(2, 9)]. *)
Definition joinStreamRoom (rnd : jsstring) (streamId : value) (st : state)
  : result state :=
  let st := with_currentStreamId streamId st in
  let username :=
    or_else (sessionUsername st) (Str (lit "Anonymous_" ++ rnd)) in
  emit "join_stream" [("stream_id", streamId); ("username", username)] st.

Definition leaveStreamRoom (st : state) : result state :=
  if truthy (currentStreamId st) then
    let username := or_else (sessionUsername st) (Str (lit "Anonymous")) in
    emit "leave_stream"
         [("stream_id", currentStreamId st); ("username", username)] st
    >>= fun st => Ok (with_currentStreamId Null st)
  else Ok st.

(** The listener of [beforeunload]. *)
Definition beforeunload (st : state) : result state :=
  leaveStreamRoom st >>= fun st =>
  match videoPlayer st with
  | Some _ => Ok (with_videoPlayer (Some (Player true)) st)
  | None => Ok st
  end.

(** The two ways the script reaches [leaveStreamRoom]. *)
Inductive leave_call : Type :=
| Direct
| PageUnload.

Definition run_call (c : leave_call) (st : state) : result state :=
  match c with
  | Direct => leaveStreamRoom st
  | PageUnload => beforeunload st
  end.

Fixpoint run_calls (cs : list leave_call) (st : state) : result state :=
  match cs with
  | [] => Ok st
  | c :: r => run_call c st >>= run_calls r
  end.

Definition leave_events (st : state) : nat :=
  match socket st with
  | Some o => count_events "leave_stream" o
  | None => 0
  end.

End Stream.

(* ================================================================== *)
(** ** Chat client *)
(* ================================================================== *)

Module Chat.

(** The placeholder element, by its content and [style.display]. *)
Record placeholder : Type := Placeholder {
  ph_children : list node;
  ph_display : jsstring
}.

(** The globals of the chat script and the elements it reaches by id.
    An element that the page does not have is [None]
    ([getElementById] returns null).

    Scope of this module: the document as the script writes it.  What
    a template interpolates is kept as written ([Raw]), and the elements
    of class chat-message are the children of #chatMessages that
    [addChatMessage] appends, so the selector [.chat-message] is
    evaluated on the children of the container.  [Browser] takes the
    functions that write interpolated markup on the parsed document,
    where that markup becomes nodes and the selector ranges over all
    descendants.  [scrollTop] and the five-second timer that removes an
    alert are not represented. *)
Record page : Type := Page {
  socket : option outbox;              (* None: no socket was created *)
  isConnectedToChat : bool;
  currentStreamId : value;
  chatInput : option jsstring;         (* [value] of #chatInput *)
  chatMessages : option (list node);   (* children of #chatMessages *)
  chatUserCount : option node;         (* #chatUserCount *)
  chatPlaceholder : option placeholder;
  body : list node                     (* elements appended to the body *)
}.

Definition with_socket (o : option outbox) (st : page) : page :=
  Page o (isConnectedToChat st) (currentStreamId st) (chatInput st)
       (chatMessages st) (chatUserCount st) (chatPlaceholder st) (body st).

Definition with_isConnectedToChat (b : bool) (st : page) : page :=
  Page (socket st) b (currentStreamId st) (chatInput st)
       (chatMessages st) (chatUserCount st) (chatPlaceholder st) (body st).

Definition with_currentStreamId (v : value) (st : page) : page :=
  Page (socket st) (isConnectedToChat st) v (chatInput st)
       (chatMessages st) (chatUserCount st) (chatPlaceholder st) (body st).

Definition with_chatInput (i : option jsstring) (st : page) : page :=
  Page (socket st) (isConnectedToChat st) (currentStreamId st) i
       (chatMessages st) (chatUserCount st) (chatPlaceholder st) (body st).

Definition with_chatMessages (c : option (list node)) (st : page) : page :=
  Page (socket st) (isConnectedToChat st) (currentStreamId st) (chatInput st)
       c (chatUserCount st) (chatPlaceholder st) (body st).

Definition with_chatUserCount (e : option node) (st : page) : page :=
  Page (socket st) (isConnectedToChat st) (currentStreamId st) (chatInput st)
       (chatMessages st) e (chatPlaceholder st) (body st).

Definition with_chatPlaceholder (p : option placeholder) (st : page) : page :=
  Page (socket st) (isConnectedToChat st) (currentStreamId st) (chatInput st)
       (chatMessages st) (chatUserCount st) p (body st).

Definition with_body (b : list node) (st : page) : page :=
  Page (socket st) (isConnectedToChat st) (currentStreamId st) (chatInput st)
       (chatMessages st) (chatUserCount st) (chatPlaceholder st) b.

(** [socket.emit(name, data)]; a TypeError when there is no socket. *)
Definition emit (name : string) (data : list (string * value)) (st : page)
  : result page :=
  match socket st with
  | None => Throw st
  | Some o => Ok (with_socket (Some (o ++ [Emit name data])) st)
  end.

(** *** Helpers *)

(** [escapeHtml(text)]: a fresh div takes the text as its content and is
    read back as markup. *)
Definition escapeHtml (text : value) : jsstring :=
  let div := createElement "div" in
  let div := set_textContent text div in
  innerHTML div.

(** [showAlert(type, message)], the helper the script declares when the
    page has none of its own. *)
Definition showAlert (type message : jsstring) (st : page) : page :=
  let alert := createElement "div" in
  let alert :=
    element_setAttribute "class"
      (lit "alert alert-" ++ type ++
       lit " alert-dismissible fade show position-fixed") alert in
  let alert :=
    element_setAttribute "style"
      (lit "top: 20px; right: 20px; z-index: 9999; min-width: 300px;") alert in
  let alert :=
    set_children
      [Raw message;
       Elem "button"
         [("type", lit "button"); ("class", lit "btn-close");
          ("data-bs-dismiss", lit "alert")] []] alert in
  with_body (body st ++ [alert]) st.

Definition updateChatUserCount (count : value) (st : page) : page :=
  match chatUserCount st with
  | Some userCountElement =>
      with_chatUserCount (Some (set_textContent count userCountElement)) st
  | None => st
  end.

Definition showChatPlaceholder (message : jsstring) (st : page) : page :=
  match chatPlaceholder st with
  | Some _ =>
      with_chatPlaceholder
        (Some (Placeholder
           [Elem "div" [("class", lit "text-center text-muted py-4")]
              [Elem "i" [("class", lit "fas fa-comments fa-2x mb-2")] [];
               Elem "p" [("class", lit "mb-0")] [Raw message]]]
           (lit "block"))) st
  | None => st
  end.

Definition hideChatPlaceholder (st : page) : page :=
  match chatPlaceholder st with
  | Some ph =>
      with_chatPlaceholder (Some (Placeholder (ph_children ph) (lit "none"))) st
  | None => st
  end.

Definition showChatStatus (message type : jsstring) (st : page) : page :=
  match chatPlaceholder st with
  | Some _ =>
      let iconClass :=
        if jsstring_eqb type (lit "success") then lit "fas fa-check-circle"
        else if jsstring_eqb type (lit "error")
             then lit "fas fa-exclamation-triangle"
             else lit "fas fa-info-circle" in
      let textClass :=
        if jsstring_eqb type (lit "success") then lit "text-success"
        else if jsstring_eqb type (lit "error") then lit "text-danger"
             else lit "text-info" in
      with_chatPlaceholder
        (Some (Placeholder
           [Elem "div"
              [("class", lit "text-center " ++ textClass ++ lit " py-4")]
              [Elem "i" [("class", iconClass ++ lit " fa-2x mb-2")] [];
               Elem "p" [("class", lit "mb-0")] [Raw message]]]
           (lit "block"))) st
  | None => st
  end.

Definition showChatError (message : jsstring) (st : page) : page :=
  showChatStatus message (lit "error") st.

Definition chat_message_class : jsstring := lit "chat-message".

(** [container.querySelectorAll('.chat-message')], in document order,
    under the scope above: the children of the container that have the
    class.  ([Browser.addChatMessage] has the search over all
    descendants.) *)
Definition querySelectorAll_chat (container : list node) : list node :=
  filter (matches (ByClass chat_message_class)) container.

(** [messages[0].remove()]: the first element of class chat-message
    leaves the container. *)
Fixpoint remove_first_chat (container : list node) : list node :=
  match container with
  | [] => []
  | n :: r =>
      if matches (ByClass chat_message_class) n then r
      else n :: remove_first_chat r
  end.

(** A parameter declared [isBot = false]: undefined takes the default. *)
Definition default_false (v : value) : value :=
  match v with
  | Undefined => Bool false
  | _ => v
  end.

Section Rendering.

(** [new Date(timestamp).toLocaleTimeString('en-US', {hour: '2-digit',
    minute: '2-digit'})]: the text depends on the time zone of the
    host. *)
Variable toLocaleTimeString : value -> jsstring.

(** The element [addChatMessage] builds. *)
Definition chat_message_element (username message timestamp isBot : value)
  : node :=
  let messageDiv := createElement "div" in
  let messageDiv :=
    element_setAttribute "class" (lit "chat-message mb-2") messageDiv in
  let messageDiv :=
    element_setAttribute "data-timestamp" (ToString timestamp) messageDiv in
  let time := toLocaleTimeString timestamp in
  let avatarClass := if truthy isBot then lit "bg-success" else lit "bg-primary" in
  let nameClass := if truthy isBot then lit "text-success" else lit "text-primary" in
  let iconClass := if truthy isBot then lit "fas fa-robot" else lit "fas fa-user" in
  set_children
    [Elem "div" [("class", lit "d-flex align-items-start gap-2")]
       [Elem "div" [("class", lit "flex-shrink-0")]
          [Elem "div"
             [("class", lit "avatar-sm " ++ avatarClass ++
                        lit " rounded-circle d-flex align-items-center justify-content-center");
              ("style", lit "width: 32px; height: 32px;")]
             [Elem "i" [("class", iconClass ++ lit " text-white");
                        ("style", lit "font-size: 12px;")] []]];
        Elem "div" [("class", lit "flex-grow-1")]
          [Elem "div" [("class", lit "d-flex align-items-center gap-2 mb-1")]
             [Elem "strong" [("class", nameClass);
                             ("style", lit "font-size: 14px;")]
                [Raw (ToString username)];
              Elem "small" [("class", lit "text-muted");
                            ("style", lit "font-size: 11px;")]
                [Raw time]];
           Elem "p" [("class", lit "mb-0");
                     ("style", lit "font-size: 13px; line-height: 1.4;")]
             [Raw (escapeHtml message)]]]]
    messageDiv.

(** [addChatMessage(username, message, timestamp, isBot = false)]. *)
Definition addChatMessage (username message timestamp isBot : value) (st : page)
  : page :=
  match chatMessages st with
  | None => st
  | Some messagesContainer =>
      let st := hideChatPlaceholder st in
      let isBot := default_false isBot in
      let messageDiv := chat_message_element username message timestamp isBot in
      let messagesContainer := messagesContainer ++ [messageDiv] in
      let messages := querySelectorAll_chat messagesContainer in
      if (100 <? List.length messages)%nat
      then with_chatMessages (Some (remove_first_chat messagesContainer)) st
      else with_chatMessages (Some messagesContainer) st
  end.

End Rendering.

Definition system_message_element (message : jsstring) : node :=
  let messageDiv := createElement "div" in
  let messageDiv :=
    element_setAttribute "class" (lit "system-message text-center mb-2")
      messageDiv in
  set_children
    [Elem "small" [("class", lit "text-muted fst-italic");
                   ("style", lit "font-size: 11px;")]
       [Elem "i" [("class", lit "fas fa-info-circle me-1")] [];
        Raw (escapeHtml (Str message))]]
    messageDiv.

Definition addSystemMessage (message : jsstring) (st : page) : page :=
  match chatMessages st with
  | None => st
  | Some messagesContainer =>
      with_chatMessages
        (Some (messagesContainer ++ [system_message_element message])) st
  end.

(** The markup [removeMessage] writes into the paragraph of a message. *)
Definition deleted_placeholder : list node :=
  [Elem "em" [] [Text (lit "[Message deleted]")]].

(** The body of the [forEach] of [removeMessage], run over the elements
    in document order; the boolean tells whether every iteration
    completed (false: [querySelector('p')] was null, a TypeError, and
    the remaining elements were not visited). *)
Fixpoint removeMessage_each (messageId : value) (messageElements : list node)
  : list node * bool :=
  match messageElements with
  | [] => ([], true)
  | element :: r =>
      if matches (ByClass chat_message_class) element then
        if strict_eq (dataset "message-id" (attrs_of element)) messageId then
          let element := element_classList_add (lit "text-muted") element in
          match update_querySelector (ByTag "p") (set_children deleted_placeholder)
                                     element with
          | None => (element :: r, false)
          | Some element =>
              let (r', ok) := removeMessage_each messageId r in
              (element :: r', ok)
          end
        else
          let (r', ok) := removeMessage_each messageId r in (element :: r', ok)
      else
        let (r', ok) := removeMessage_each messageId r in (element :: r', ok)
  end.

(** [removeMessage(messageId)]. *)
Definition removeMessage (messageId : value) (st : page) : result page :=
  match chatMessages st with
  | None => Ok st
  | Some c =>
      let (c', ok) := removeMessage_each messageId c in
      let st := with_chatMessages (Some c') st in
      if ok then Ok st else Throw st
  end.

(** [sendChatMessage()]; reading [input.value] throws when the page has
    no #chatInput. *)
Definition sendChatMessage (st : page) : result page :=
  match chatInput st with
  | None => Throw st
  | Some value =>
      let message := trim value in
      if negb (truthy (Str message)) then Ok st
      else if negb (isConnectedToChat st) then
        Ok (showAlert (lit "warning")
              (lit "Not connected to chat. Please refresh the page.") st)
      else if (500 <? List.length message)%nat then
        Ok (showAlert (lit "warning")
              (lit "Message too long (max 500 characters)") st)
      else
        emit "send_message"
             [("stream_id", currentStreamId st); ("message", Str message)] st
        >>= fun st => Ok (with_chatInput (Some []) st)
  end.

(** *** The listeners registered by [initializeChat] *)

(** One entry of the [messages] array of a chat_history payload, and
    the payload of new_message. *)
Record message_payload : Type := MessagePayload {
  msg_username : value;
  msg_message : value;
  msg_timestamp : value;
  msg_is_bot : value
}.

(** Payload of user_joined and of user_left. *)
Record presence_payload : Type := PresencePayload {
  pres_username : value;
  pres_user_count : value
}.

Inductive server_event : Type :=
| connect
| disconnect
| join_success (user_count : value)
| chat_history (messages : option (list message_payload))  (* None: no array *)
| new_message (data : message_payload)
| user_joined (data : presence_payload)
| user_left (data : presence_payload)
| message_blocked (reason : value)
| message_deleted (message_id : value)
| error (message : value).

Section Listeners.

Variable toLocaleTimeString : value -> jsstring.

Definition render (message : message_payload) (st : page) : page :=
  addChatMessage toLocaleTimeString (msg_username message) (msg_message message)
                 (msg_timestamp message) (msg_is_bot message) st.

(** The element that entry [message] of a payload is rendered as. *)
Definition rendered (message : message_payload) : node :=
  chat_message_element toLocaleTimeString
    (msg_username message) (msg_message message) (msg_timestamp message)
    (default_false (msg_is_bot message)).

(** [data.messages.forEach(message => addChatMessage(...))]. *)
Definition forEach_addChatMessage (messages : list message_payload) (st : page)
  : page :=
  fold_left (fun st message => render message st) messages st.

(** The listener of each event; [streamId] is the argument of the
    enclosing [initializeChat]. *)
Definition handle (streamId : value) (ev : server_event) (st : page)
  : result page :=
  match ev with
  | connect =>
      let st := showChatStatus (lit "Connected to chat!") (lit "success") st in
      emit "join_stream_chat" [("stream_id", streamId)] st
  | disconnect =>
      let st := with_isConnectedToChat false st in
      let st := updateChatUserCount (Number 0) st in
      Ok (showChatError (lit "Disconnected from chat") st)
  | join_success user_count =>
      let st := with_isConnectedToChat true st in
      let st := updateChatUserCount (or_else user_count (Number 0)) st in
      Ok (hideChatPlaceholder st)
  | chat_history messages =>
      match messages with
      | Some (m :: r) =>
          let st := hideChatPlaceholder st in
          Ok (forEach_addChatMessage (m :: r) st)
      | _ =>
          Ok (showChatPlaceholder
                (lit "No messages yet. Start the conversation!") st)
      end
  | new_message data =>
      let st := render data st in
      Ok (hideChatPlaceholder st)
  | user_joined data =>
      let st := updateChatUserCount
                  (or_else (pres_user_count data) (Number 0)) st in
      Ok (addSystemMessage
            (ToString (pres_username data) ++ lit " joined the chat") st)
  | user_left data =>
      let st := updateChatUserCount
                  (or_else (pres_user_count data) (Number 0)) st in
      Ok (addSystemMessage
            (ToString (pres_username data) ++ lit " left the chat") st)
  | message_blocked reason =>
      Ok (showAlert (lit "warning")
            (lit "Message blocked: " ++ ToString reason) st)
  | message_deleted message_id =>
      removeMessage message_id st
  | error message =>
      Ok (showAlert (lit "danger") (lit "Chat error: " ++ ToString message) st)
  end.

End Listeners.

(** [initializeChat(streamId)] up to the registration of the listeners;
    [io_loaded] tells whether [io] is defined. *)
Definition initializeChat (io_loaded : bool) (streamId : value) (st : page) : page :=
  let st := with_currentStreamId streamId st in
  if io_loaded then with_socket (Some []) st
  else showChatError (lit "Chat unavailable - Socket.IO not loaded") st.

(** The keypress listener of #chatInput. *)
Definition keypress (key : jsstring) (st : page) : result page :=
  if jsstring_eqb key (lit "Enter") then sendChatMessage st else Ok st.

(** The chat messages the page shows, in document order. *)
Definition shown_messages (st : page) : list node :=
  match chatMessages st with
  | Some c => querySelectorAll_chat c
  | None => []
  end.

Definition outbox_of (st : page) : outbox :=
  match socket st with
  | Some o => o
  | None => []
  end.

End Chat.

(* ================================================================== *)
(** ** Chat client, on the document the browser holds *)
(* ================================================================== *)

(** [Chat] keeps the markup that a template interpolates as the string
    that was written and looks for chat messages among the children of
    the container.  Here the functions whose effect depends on what the
    interpolated markup contains are taken on the document itself: the
    string assigned to [innerHTML] is the template of the source, white
    space included, the children of the element are what the parser
    makes of it, and [.chat-message] ranges over all descendants of the
    container. *)
Module Browser.

Definition quoted (s : jsstring) : jsstring := [34%N] ++ s ++ [34%N].

Definition nl : jsstring := [10%N].

(** The template literal of [addChatMessage]. *)
Definition chat_message_markup
    (avatarClass iconClass nameClass username time body : jsstring) : jsstring :=
  nl ++
  lit "        <div class=" ++ quoted (lit "d-flex align-items-start gap-2") ++
  lit ">" ++ nl ++
  lit "            <div class=" ++ quoted (lit "flex-shrink-0") ++ lit ">" ++ nl ++
  lit "                <div class=" ++
  quoted (lit "avatar-sm " ++ avatarClass ++
          lit " rounded-circle d-flex align-items-center justify-content-center") ++
  lit " style=" ++ quoted (lit "width: 32px; height: 32px;") ++ lit ">" ++ nl ++
  lit "                    <i class=" ++ quoted (iconClass ++ lit " text-white") ++
  lit " style=" ++ quoted (lit "font-size: 12px;") ++ lit "></i>" ++ nl ++
  lit "                </div>" ++ nl ++
  lit "            </div>" ++ nl ++
  lit "            <div class=" ++ quoted (lit "flex-grow-1") ++ lit ">" ++ nl ++
  lit "                <div class=" ++
  quoted (lit "d-flex align-items-center gap-2 mb-1") ++ lit ">" ++ nl ++
  lit "                    <strong class=" ++ quoted nameClass ++
  lit " style=" ++ quoted (lit "font-size: 14px;") ++ lit ">" ++
  username ++ lit "</strong>" ++ nl ++
  lit "                    <small class=" ++ quoted (lit "text-muted") ++
  lit " style=" ++ quoted (lit "font-size: 11px;") ++ lit ">" ++
  time ++ lit "</small>" ++ nl ++
  lit "                </div>" ++ nl ++
  lit "                <p class=" ++ quoted (lit "mb-0") ++
  lit " style=" ++ quoted (lit "font-size: 13px; line-height: 1.4;") ++ lit ">" ++
  body ++ lit "</p>" ++ nl ++
  lit "            </div>" ++ nl ++
  lit "        </div>" ++ nl ++
  lit "    ".

(** The template literal of [showAlert]. *)
Definition alert_markup (message : jsstring) : jsstring :=
  nl ++
  lit "            " ++ message ++ nl ++
  lit "            <button type=" ++ quoted (lit "button") ++
  lit " class=" ++ quoted (lit "btn-close") ++
  lit " data-bs-dismiss=" ++ quoted (lit "alert") ++ lit "></button>" ++ nl ++
  lit "        ".

(** [showAlert(type, message)]. *)
Definition showAlert (type message : jsstring) (st : Chat.page) : Chat.page :=
  let alert := createElement "div" in
  let alert :=
    element_setAttribute "class"
      (lit "alert alert-" ++ type ++
       lit " alert-dismissible fade show position-fixed") alert in
  let alert :=
    element_setAttribute "style"
      (lit "top: 20px; right: 20px; z-index: 9999; min-width: 300px;") alert in
  let alert := set_children (set_innerHTML (alert_markup message)) alert in
  Chat.with_body (Chat.body st ++ [alert]) st.

(** The template literal of [addSystemMessage]. *)
Definition system_message_markup (body : jsstring) : jsstring :=
  nl ++
  lit "        <small class=" ++ quoted (lit "text-muted fst-italic") ++
  lit " style=" ++ quoted (lit "font-size: 11px;") ++ lit ">" ++ nl ++
  lit "            <i class=" ++ quoted (lit "fas fa-info-circle me-1") ++
  lit "></i>" ++ body ++ nl ++
  lit "        </small>" ++ nl ++
  lit "    ".

Definition system_message_element (message : jsstring) : node :=
  let messageDiv := createElement "div" in
  let messageDiv :=
    element_setAttribute "class" (lit "system-message text-center mb-2")
      messageDiv in
  set_children
    (set_innerHTML (system_message_markup (Chat.escapeHtml (Str message))))
    messageDiv.

(** [addSystemMessage(message)]. *)
Definition addSystemMessage (message : jsstring) (st : Chat.page) : Chat.page :=
  match Chat.chatMessages st with
  | None => st
  | Some messagesContainer =>
      Chat.with_chatMessages
        (Some (messagesContainer ++ [system_message_element message])) st
  end.

(** The listeners of user_joined and of user_left. *)
Definition on_user_joined (data : Chat.presence_payload) (st : Chat.page)
  : Chat.page :=
  let st := Chat.updateChatUserCount
              (or_else (Chat.pres_user_count data) (Number 0)) st in
  addSystemMessage (ToString (Chat.pres_username data) ++ lit " joined the chat") st.

Definition on_user_left (data : Chat.presence_payload) (st : Chat.page)
  : Chat.page :=
  let st := Chat.updateChatUserCount
              (or_else (Chat.pres_user_count data) (Number 0)) st in
  addSystemMessage (ToString (Chat.pres_username data) ++ lit " left the chat") st.

Section Rendering.

(** [new Date(timestamp).toLocaleTimeString('en-US', {hour: '2-digit',
    minute: '2-digit'})]. *)
Variable toLocaleTimeString : value -> jsstring.

(** The element [addChatMessage] builds. *)
Definition chat_message_element (username message timestamp isBot : value)
  : node :=
  let messageDiv := createElement "div" in
  let messageDiv :=
    element_setAttribute "class" (lit "chat-message mb-2") messageDiv in
  let messageDiv :=
    element_setAttribute "data-timestamp" (ToString timestamp) messageDiv in
  let time := toLocaleTimeString timestamp in
  let avatarClass := if truthy isBot then lit "bg-success" else lit "bg-primary" in
  let nameClass := if truthy isBot then lit "text-success" else lit "text-primary" in
  let iconClass := if truthy isBot then lit "fas fa-robot" else lit "fas fa-user" in
  set_children
    (set_innerHTML
       (chat_message_markup avatarClass iconClass nameClass
          (ToString username) time (Chat.escapeHtml message)))
    messageDiv.

(** [addChatMessage(username, message, timestamp, isBot = false)]. *)
Definition addChatMessage (username message timestamp isBot : value)
    (st : Chat.page) : Chat.page :=
  match Chat.chatMessages st with
  | None => st
  | Some messagesContainer =>
      let st := Chat.hideChatPlaceholder st in
      let isBot := Chat.default_false isBot in
      let messageDiv := chat_message_element username message timestamp isBot in
      let messagesContainer := messagesContainer ++ [messageDiv] in
      let messages :=
        querySelectorAll (ByClass Chat.chat_message_class) messagesContainer in
      if (100 <? List.length messages)%nat
      then
        match remove_first_match (ByClass Chat.chat_message_class)
                                 messagesContainer with
        | Some messagesContainer => Chat.with_chatMessages (Some messagesContainer) st
        | None => Chat.with_chatMessages (Some messagesContainer) st
        end
      else Chat.with_chatMessages (Some messagesContainer) st
  end.

Definition render (message : Chat.message_payload) (st : Chat.page) : Chat.page :=
  addChatMessage (Chat.msg_username message) (Chat.msg_message message)
                 (Chat.msg_timestamp message) (Chat.msg_is_bot message) st.

(** The element that entry [message] of a payload is rendered as. *)
Definition rendered (message : Chat.message_payload) : node :=
  chat_message_element
    (Chat.msg_username message) (Chat.msg_message message)
    (Chat.msg_timestamp message) (Chat.default_false (Chat.msg_is_bot message)).

(** [data.messages.forEach(message => addChatMessage(...))]. *)
Definition forEach_addChatMessage (messages : list Chat.message_payload)
    (st : Chat.page) : Chat.page :=
  fold_left (fun st message => render message st) messages st.


(** The listener of new_message. *)
Definition on_new_message (data : Chat.message_payload) (st : Chat.page)
  : Chat.page :=
  let st := render data st in
  Chat.hideChatPlaceholder st.

End Rendering.

(** The listener of message_blocked. *)
Definition on_message_blocked (reason : value) (st : Chat.page) : Chat.page :=
  showAlert (lit "warning") (lit "Message blocked: " ++ ToString reason) st.

(** The chat messages of the page: the descendants of the container
    that have the class, in document order. *)
Definition shown_messages (st : Chat.page) : list node :=
  match Chat.chatMessages st with
  | Some c => querySelectorAll (ByClass Chat.chat_message_class) c
  | None => []
  end.

(** The children of the container. *)
Definition container (st : Chat.page) : list node :=
  match Chat.chatMessages st with
  | Some c => c
  | None => []
  end.

End Browser.

(* ================================================================== *)
(** ** Stream page: the player, its status line and the notifications *)
(* ================================================================== *)

Module Player.

(** The Video.js player, by what the script reads and sets on it.
    [wasPlayingBeforeHidden] is the property the script adds to the
    player; before the first assignment it is undefined, which the script
    only tests for truth, so it is [false] here. *)
Record player : Type := VideoPlayer {
  paused : bool;
  wasPlayingBeforeHidden : bool;
  videoWidth : Z;
  videoHeight : Z
}.

(** The element #playerStatus: its attributes, its content and
    [style.display]. *)
Record status : Type := Status {
  status_attrs : attributes;
  status_children : list node;
  status_display : jsstring
}.

(** The globals of the stream script that the player functions use,
    [window.isLive], and the elements they reach.  Timers ([setTimeout],
    [setInterval]) are not represented. *)
Record page : Type := Page {
  videoPlayer : option player;          (* None: [videoPlayer] is null *)
  currentStreamId : value;
  isLive : value;                       (* [window.isLive] *)
  playerStatus : option status;         (* #playerStatus, when in the document *)
  videoContainer : option jsstring;     (* [style.position] of the parent of
                                           .video-js or #streamPlayer; None:
                                           the page has neither *)
  streamQuality : option node;          (* #streamQuality *)
  body : list node                      (* elements appended to the body *)
}.

Definition with_videoPlayer (p : option player) (st : page) : page :=
  Page p (currentStreamId st) (isLive st) (playerStatus st) (videoContainer st)
       (streamQuality st) (body st).

Definition with_isLive (v : value) (st : page) : page :=
  Page (videoPlayer st) (currentStreamId st) v (playerStatus st)
       (videoContainer st) (streamQuality st) (body st).

Definition with_playerStatus (s : option status) (st : page) : page :=
  Page (videoPlayer st) (currentStreamId st) (isLive st) s (videoContainer st)
       (streamQuality st) (body st).

Definition with_videoContainer (c : option jsstring) (st : page) : page :=
  Page (videoPlayer st) (currentStreamId st) (isLive st) (playerStatus st) c
       (streamQuality st) (body st).

Definition with_streamQuality (q : option node) (st : page) : page :=
  Page (videoPlayer st) (currentStreamId st) (isLive st) (playerStatus st)
       (videoContainer st) q (body st).

Definition with_body (b : list node) (st : page) : page :=
  Page (videoPlayer st) (currentStreamId st) (isLive st) (playerStatus st)
       (videoContainer st) (streamQuality st) b.

(** [videoPlayer.pause()]. *)
Definition pause (p : player) : player :=
  VideoPlayer true (wasPlayingBeforeHidden p) (videoWidth p) (videoHeight p).

(** [videoPlayer.play()], once its promise is settled: playback runs
    when the promise resolves, the player stays as it is when it is
    rejected (the script only logs the rejection). *)
Definition play (resolves : bool) (p : player) : player :=
  if resolves
  then VideoPlayer false (wasPlayingBeforeHidden p) (videoWidth p) (videoHeight p)
  else p.

Definition set_wasPlayingBeforeHidden (b : bool) (p : player) : player :=
  VideoPlayer (paused p) b (videoWidth p) (videoHeight p).

(** The element [showPlayerStatus] creates when the page has none. *)
Definition new_status : status :=
  Status
    [("id", lit "playerStatus");
     ("class", lit "position-absolute top-50 start-50 translate-middle text-center text-white");
     ("style", lit "z-index: 1000; background: rgba(0, 0, 0, 0.8); padding: 1rem 2rem; border-radius: 0.5rem; font-size: 1.1rem;")]
    [] [].

(** [showPlayerStatus(message)].  A status element created on a page
    without video container is not put into the document: what is
    written to it is lost. *)
Definition showPlayerStatus (message : jsstring) (st : page) : page :=
  let content :=
    [Elem "i" [("class", lit "fas fa-circle-notch fa-spin me-2")] [];
     Raw message] in
  match playerStatus st with
  | Some statusElement =>
      with_playerStatus
        (Some (Status (status_attrs statusElement) content (lit "block"))) st
  | None =>
      let statusElement := new_status in
      match videoContainer st with
      | Some _ =>
          let st := with_videoContainer (Some (lit "relative")) st in
          with_playerStatus
            (Some (Status (status_attrs statusElement) content (lit "block"))) st
      | None => st
      end
  end.

Definition hidePlayerStatus (st : page) : page :=
  match playerStatus st with
  | Some statusElement =>
      with_playerStatus
        (Some (Status (status_attrs statusElement) (status_children statusElement)
                      (lit "none"))) st
  | None => st
  end.

(** [showNotification(message, type = 'info')]. *)
Definition showNotification (message type : jsstring) (st : page) : page :=
  let notification := createElement "div" in
  let notification :=
    element_setAttribute "class"
      (lit "alert alert-" ++
       (if jsstring_eqb type (lit "error") then lit "danger" else type) ++
       lit " alert-dismissible fade show position-fixed") notification in
  let notification :=
    element_setAttribute "style"
      (lit "top: 20px; right: 20px; z-index: 9999; min-width: 300px; max-width: 500px;")
      notification in
  let notification :=
    set_children
      [Raw message;
       Elem "button"
         [("type", lit "button"); ("class", lit "btn-close");
          ("data-bs-dismiss", lit "alert")] []] notification in
  with_body (body st ++ [notification]) st.

(** [handleStreamStatusUpdate(data)], [data] by its fields. *)
Definition handleStreamStatusUpdate (stream_id status : value) (st : page) : page :=
  if strict_eq stream_id (currentStreamId st) then
    match strict_eq status (Str (lit "offline")), videoPlayer st with
    | true, Some p =>
        let st := with_videoPlayer (Some (pause p)) st in
        let st := showPlayerStatus (lit "Stream has ended") st in
        showNotification (lit "Stream has ended") (lit "info") st
    | _, _ =>
        if strict_eq status (Str (lit "live")) && negb (truthy (isLive st))
        then showNotification (lit "Stream is now live!") (lit "success") st
        else st
    end
  else st.

(** The label [detectStreamQuality] gives to a video height. *)
Definition quality_of_height (videoHeight : Z) : jsstring :=
  if (2160 <=? videoHeight)%Z then lit "4K"
  else if (1440 <=? videoHeight)%Z then lit "1440p"
  else if (1080 <=? videoHeight)%Z then lit "1080p"
  else if (720 <=? videoHeight)%Z then lit "720p"
  else if (480 <=? videoHeight)%Z then lit "480p"
  else if (360 <=? videoHeight)%Z then lit "360p"
  else if (0 <? videoHeight)%Z then lit "240p"
  else lit "Unknown".

Definition detectStreamQuality (st : page) : page :=
  match videoPlayer st with
  | None => st
  | Some p =>
      let quality := quality_of_height (videoHeight p) in
      match streamQuality st with
      | Some qualityElement =>
          with_streamQuality (Some (set_textContent (Str quality) qualityElement)) st
      | None => st
      end
  end.

(** The listener of [visibilitychange]; [hidden] is [document.hidden],
    [resolves] tells how the promise of [play()] settles. *)
Definition visibilitychange (hidden resolves : bool) (st : page) : page :=
  match videoPlayer st with
  | None => st
  | Some p =>
      if hidden then
        if negb (paused p)
        then with_videoPlayer
               (Some (set_wasPlayingBeforeHidden true (pause p))) st
        else st
      else
        if wasPlayingBeforeHidden p
        then with_videoPlayer
               (Some (set_wasPlayingBeforeHidden false (play resolves p))) st
        else st
  end.

(** The body of the [then] of the periodic status request of
    [startStreamHealthCheck], given [data.is_live]. *)
Definition health_response (is_live : value) (st : page) : page :=
  if negb (truthy is_live) && truthy (isLive st) then
    let st :=
      handleStreamStatusUpdate (currentStreamId st) (Str (lit "offline")) st in
    with_isLive (Bool false) st
  else st.

(** The message [handlePlayerError] picks for the code of a media
    error. *)
Definition errorMessage_of_code (code : value) : jsstring :=
  if strict_eq code (Number 1) then lit "Stream aborted"
  else if strict_eq code (Number 2) then lit "Network error"
  else if strict_eq code (Number 3) then lit "Stream format not supported"
  else if strict_eq code (Number 4) then lit "Stream not found"
  else lit "Unknown playback error".

(** [handlePlayerError(error)]; [playerError] is what
    [videoPlayer.error()] returns, by its code (None: null). *)
Definition handlePlayerError (playerError : option value) (st : page) : page :=
  let errorMessage :=
    match videoPlayer st with
    | Some _ =>
        match playerError with
        | Some code => errorMessage_of_code code
        | None => lit "An error occurred while playing the stream"
        end
    | None => lit "An error occurred while playing the stream"
    end in
  let st := showPlayerStatus (lit "Error: " ++ errorMessage) st in
  showNotification errorMessage (lit "error") st.

(** The events [setupPlayerEvents] listens to; the error event with
    what [videoPlayer.error()] returns when the listener runs. *)
Inductive player_event : Type :=
| loadstart
| canplay
| play_event
| pause_event
| ended
| error_event (playerError : option value)
| waiting
| playing
| loadedmetadata.

(** The listener of each player event. *)
Definition on_player_event (ev : player_event) (st : page) : page :=
  match ev with
  | loadstart => showPlayerStatus (lit "Loading stream...") st
  | canplay => hidePlayerStatus st
  | play_event => hidePlayerStatus st
  | pause_event => st
  | ended => showPlayerStatus (lit "Stream has ended") st
  | error_event playerError => handlePlayerError playerError st
  | waiting => showPlayerStatus (lit "Buffering...") st
  | playing => hidePlayerStatus st
  | loadedmetadata => detectStreamQuality st
  end.

End Player.

(* ================================================================== *)
(** ** Sample inputs *)
(* ================================================================== *)

Module Samples.

(** A stream page whose socket is open and has emitted nothing. *)
Definition stream_page : Stream.state :=
  Stream.State (Some []) Null (Str (lit "alice")) (Some (Stream.Player false)).

(** A chat page with every element present, an empty message list and
    an open socket; [connected] is [isConnectedToChat], [typed] the
    content of the input field. *)
Definition chat_page (connected : bool) (typed : jsstring) : Chat.page :=
  Chat.Page (Some []) connected (Number 42) (Some typed) (Some [])
            (Some (Elem "span" [("id", lit "chatUserCount")] [Text (lit "0")]))
            (Some (Chat.Placeholder [] (lit "block")))
            [].

Definition clock (timestamp : value) : jsstring := lit "12:00 PM".


(** Entry [i] of a history payload. *)
Definition entry (i : nat) : Chat.message_payload :=
  Chat.MessagePayload (Str (lit "alice")) (Number (Z.of_nat i))
                      (Number 1700000000000) (Bool false).

Definition entries (n : nat) : list Chat.message_payload :=
  List.map entry (seq 1 n).


(** A username that is markup: one element of class chat-message. *)
Definition nested_name : jsstring :=
  lit "<div class=" ++ Browser.quoted (lit "chat-message") ++ lit ">x</div>".

(** Entry [i] of a payload whose usernames are [nested_name]. *)
Definition nested_entry (i : nat) : Chat.message_payload :=
  Chat.MessagePayload (Str nested_name) (Number (Z.of_nat i))
                      (Number 1700000000000) (Bool false).

Definition nested_entries (n : nat) : list Chat.message_payload :=
  List.map nested_entry (seq 1 n).

(** A username that is markup: [n] empty elements of class
    chat-message. *)
Definition crowd_name (n : nat) : jsstring :=
  List.concat
    (repeat (lit "<div class=" ++ Browser.quoted (lit "chat-message") ++
             lit "></div>") n).

Definition crowd_entry (n : nat) : Chat.message_payload :=
  Chat.MessagePayload (Str (crowd_name n)) (Str (lit "hello"))
                      (Number 1700000000000) (Bool false).

(** The numerals of [n] consecutive numbers from [i] on. *)
Definition numerals (i n : nat) : list jsstring :=
  List.map (fun k => string_of_Z (Z.of_nat k)) (seq i n).

End Samples.

Module MoreSamples.

(** A chat message as a page that tags its messages would hold it. *)
Definition tagged_message (id text : jsstring) : node :=
  Elem "div" [("class", lit "chat-message mb-2"); ("data-message-id", id)]
    [Elem "p" [("class", lit "mb-0")] [Raw text]].


Definition notice : node :=
  Chat.system_message_element (lit "bob joined the chat").

Definition tagged_page : Chat.page :=
  Chat.with_chatMessages
    (Some [notice; tagged_message (lit "7") (lit "hello");
           tagged_message (lit "8") (lit "bye")])
    (Samples.chat_page true []).


Definition counter : node :=
  Elem "span" [("id", lit "chatUserCount")] [Text (lit "0")].

(** A stream page of an anonymous visitor; [o] is the socket. *)
Definition anonymous_page (o : option outbox) : Stream.state :=
  Stream.State o Null Undefined (Some (Stream.Player false)).

Definition playing : Player.player := Player.VideoPlayer false false 1920 1080.

Definition player_page : Player.page :=
  Player.Page (Some playing) (Number 42) (Bool true) None (Some [])
              (Some (Elem "span" [("id", lit "streamQuality")] [])) [].

End MoreSamples.

(* ================================================================== *)
(** ** Notions used in the statements *)
(* ================================================================== *)

(** The state after [sendChatMessage] accepted [message]. *)
Definition sent (message : jsstring) (o : outbox) (st : Chat.page) : Chat.page :=
  Chat.with_chatInput (Some [])
    (Chat.with_socket
       (Some (o ++ [Emit "send_message"
                      [("stream_id", Chat.currentStreamId st);
                       ("message", Str message)]])) st).



(* ================================================================== *)
(** ** Notions used in the statements on the parsed document *)
(* ================================================================== *)



(** Text that [escapeHtml] and the parser carry through unchanged:
    without U+0000 and carriage return. *)
Definition clean_unit (c : code_unit) : bool := negb ((c =? 0) || (c =? 13))%N.

Definition clean (s : jsstring) : Prop := Forall (fun c => clean_unit c = true) s.



(** A line break of the template and the indentation after it. *)
Definition indent (n : nat) : jsstring := Browser.nl ++ repeat 32%N n.



(** The text of the paragraph of a chat message. *)
Definition body_text (n : node) : option jsstring :=
  option_map textContent (querySelector (ByTag "p") n).

(** The children of the element of a system message that reads
    [text]: the text node ends with the line break that follows the
    interpolation in the template. *)
Definition system_message_children (text : jsstring) : list node :=
  [Text (indent 8);
   Elem "small" [("class", lit "text-muted fst-italic");
                 ("style", lit "font-size: 11px;")]
     [Text (indent 12);
      Elem "i" [("class", lit "fas fa-info-circle me-1")] [];
      Text (text ++ indent 8)];
   Text (indent 4)].

(** The element of a system message that reads [text]. *)
Definition notice_element (text : jsstring) : node :=
  Elem "div" [("class", lit "system-message text-center mb-2")]
    (system_message_children text).



(* ================================================================== *)
(** ** Notions used in the further statements *)
(* ================================================================== *)

(** A run of the chat listeners over a sequence of socket events.  A
    listener that throws ends there; the page goes on from the state it
    reached. *)
Definition run_events (toLocaleTimeString : value -> jsstring) (streamId : value)
    (evs : list Chat.server_event) (st : Chat.page) : Chat.page :=
  fold_left (fun st ev => state_of (Chat.handle toLocaleTimeString streamId ev st))
            evs st.

(** Whether the last of the join_success and disconnect events of [evs]
    is a join_success; [b] when there is none. *)
Fixpoint connected_after (evs : list Chat.server_event) (b : bool) : bool :=
  match evs with
  | [] => b
  | Chat.join_success _ :: r => connected_after r true
  | Chat.disconnect :: r => connected_after r false
  | _ :: r => connected_after r b
  end.

Definition is_connect (ev : Chat.server_event) : bool :=
  match ev with
  | Chat.connect => true
  | _ => false
  end.

(** The children of the container that are not chat messages. *)
Definition other_children (c : list node) : list node :=
  filter (fun n => negb (matches (ByClass Chat.chat_message_class) n)) c.



(** What the helpers that only write to the document leave alone. *)
Definition same_script_state (st st' : Chat.page) : Prop :=
  Chat.socket st' = Chat.socket st
  /\ Chat.isConnectedToChat st' = Chat.isConnectedToChat st
  /\ Chat.chatInput st' = Chat.chatInput st.



(** A placeholder after [hideChatPlaceholder]. *)
Definition hidden_placeholder (ph : Chat.placeholder) : Chat.placeholder :=
  Chat.Placeholder (Chat.ph_children ph) (lit "none").

(** The four code units that [escapeHtml] replaces. *)
Definition special_unit (c : code_unit) : bool :=
  ((c =? 38) || (c =? 160) || (c =? 60) || (c =? 62))%N.

(** A run of the listeners of [setupPlayerEvents]. *)
Definition run_player_events (evs : list Player.player_event) (st : Player.page)
  : Player.page :=
  fold_left (fun st ev => Player.on_player_event ev st) evs st.

(** [style.display] of the status line after a run of player events
    that started with [d]: decided by the last event that shows or
    hides it. *)
Fixpoint status_display_after (evs : list Player.player_event) (d : jsstring)
  : jsstring :=
  match evs with
  | [] => d
  | (Player.loadstart | Player.ended | Player.waiting | Player.error_event _) :: r =>
      status_display_after r (lit "block")
  | (Player.canplay | Player.play_event | Player.playing) :: r =>
      status_display_after r (lit "none")
  | (Player.pause_event | Player.loadedmetadata) :: r =>
      status_display_after r d
  end.

Definition is_error_event (ev : Player.player_event) : bool :=
  match ev with
  | Player.error_event _ => true
  | _ => false
  end.

(** A run of periodic status responses, each by its [is_live]. *)
Definition run_health (responses : list value) (st : Player.page) : Player.page :=
  fold_left (fun st is_live => Player.health_response is_live st) responses st.

(** Whether [handleStreamStatusUpdate] has anything to do. *)
Definition status_update_applies (stream_id status : value) (st : Player.page)
  : bool :=
  strict_eq stream_id (Player.currentStreamId st)
  && ((strict_eq status (Str (lit "offline"))
       && match Player.videoPlayer st with Some _ => true | None => false end)
      || (strict_eq status (Str (lit "live"))
          && negb (truthy (Player.isLive st)))).

(* ================================================================== *)
(** ** Leaving the stream room *)
(* ================================================================== *)

Section StreamFacts.

Import Stream.

Lemma leaveStreamRoom_noop (st : state) :
  currentStreamId st = Null -> leaveStreamRoom st = Ok st.
Proof.
  intros H. unfold leaveStreamRoom. rewrite H. reflexivity.
Qed.

(** Once the stream id is cleared, no way of reaching
    [leaveStreamRoom] touches the socket or the stream id. *)
Lemma run_call_after_leave (c : leave_call) (st : state) :
  currentStreamId st = Null ->
  exists st', run_call c st = Ok st'
              /\ socket st' = socket st /\ currentStreamId st' = Null.
Proof.
  intros H. destruct c; simpl.
  - exists st. rewrite (leaveStreamRoom_noop st H). auto.
  - unfold beforeunload. rewrite (leaveStreamRoom_noop st H). simpl.
    destruct (videoPlayer st); eexists; split; try reflexivity; simpl; auto.
Qed.

Lemma run_calls_after_leave (cs : list leave_call) :
  forall st, currentStreamId st = Null ->
  exists st', run_calls cs st = Ok st'
              /\ socket st' = socket st /\ currentStreamId st' = Null.
Proof.
  induction cs as [|c cs IH]; intros st H; simpl.
  - exists st. auto.
  - destruct (run_call_after_leave c st H) as (st1 & E1 & S1 & C1).
    rewrite E1. simpl.
    destruct (IH st1 C1) as (st2 & E2 & S2 & C2).
    exists st2. rewrite E2, S2, S1. auto.
Qed.

(** The first call after a join emits leave_stream and clears the id. *)
Lemma first_call_leaves (c : leave_call) (st : state) (o : outbox) :
  socket st = Some o -> truthy (currentStreamId st) = true ->
  exists st', run_call c st = Ok st'
    /\ socket st' =
         Some (o ++ [Emit "leave_stream"
                       [("stream_id", currentStreamId st);
                        ("username",
                         or_else (sessionUsername st) (Str (lit "Anonymous")))]])
    /\ currentStreamId st' = Null.
Proof.
  intros Hs Ht. destruct c; simpl.
  - unfold leaveStreamRoom, emit. rewrite Ht, Hs. simpl.
    eexists; split; [reflexivity|]. simpl. auto.
  - unfold beforeunload, leaveStreamRoom, emit. rewrite Ht, Hs. simpl.
    destruct (videoPlayer st); eexists; (split; [reflexivity|]); simpl; auto.
Qed.

(** C6. After a join on an open socket with a stream id that is truthy
    (the only call site of [joinStreamRoom] is guarded by
    [if (window.streamId)]), any non-empty sequence of calls of
    [leaveStreamRoom], direct or from the beforeunload listener,
    completes and leaves exactly one leave_stream event on the socket,
    emitted by the first call, which also clears [currentStreamId];
    every later [leaveStreamRoom] returns the state unchanged. *)
Theorem C6_leave_emits_once
    (rnd : jsstring) (streamId : value) (st : state) (o : outbox)
    (c : leave_call) (cs : list leave_call) :
  socket st = Some o ->
  truthy streamId = true ->
  exists st1 st2 st3,
    joinStreamRoom rnd streamId st = Ok st1
    /\ run_call c st1 = Ok st2
    /\ run_calls (c :: cs) st1 = Ok st3
    /\ leave_events st1 = count_events "leave_stream" o
    /\ leave_events st2 = S (leave_events st1)
    /\ leave_events st3 = S (leave_events st1)
    /\ socket st3 =
         Some (o ++
               [Emit "join_stream"
                  [("stream_id", streamId);
                   ("username",
                    or_else (sessionUsername st) (Str (lit "Anonymous_" ++ rnd)))];
                Emit "leave_stream"
                  [("stream_id", streamId);
                   ("username",
                    or_else (sessionUsername st) (Str (lit "Anonymous")))]])
    /\ currentStreamId st2 = Null
    /\ currentStreamId st3 = Null
    /\ leaveStreamRoom st3 = Ok st3.
Proof.
  intros Hs Ht.
  set (st1 := with_socket
                (Some (o ++ [Emit "join_stream"
                               [("stream_id", streamId);
                                ("username",
                                 or_else (sessionUsername st)
                                         (Str (lit "Anonymous_" ++ rnd)))]]))
                (with_currentStreamId streamId st)).
  assert (J : joinStreamRoom rnd streamId st = Ok st1).
  { unfold joinStreamRoom, emit. simpl. rewrite Hs. reflexivity. }
  destruct (first_call_leaves c st1 eq_refl Ht) as (st2 & E2 & S2 & C2).
  destruct (run_calls_after_leave cs st2 C2) as (st3 & E3 & S3 & C3).
  exists st1, st2, st3.
  assert (L1 : leave_events st1 = count_events "leave_stream" o).
  { unfold leave_events, count_events. simpl.
    rewrite filter_app, length_app. simpl. lia. }
  assert (L2 : leave_events st2 = S (leave_events st1)).
  { unfold leave_events. rewrite S2. simpl. unfold count_events.
    rewrite !filter_app, !length_app. simpl. lia. }
  repeat split; auto.
  - simpl. rewrite E2. exact E3.
  - unfold leave_events in *. rewrite S3. exact L2.
  - rewrite S3, S2. simpl. rewrite <- app_assoc. reflexivity.
  - apply leaveStreamRoom_noop; exact C3.
Qed.

End StreamFacts.

Lemma C6_leave_emits_once_witness :
  exists st1 st2 st3,
    Stream.joinStreamRoom (lit "k3j9x2m1q") (Number 42) Samples.stream_page = Ok st1
    /\ Stream.run_call Stream.Direct st1 = Ok st2
    /\ Stream.run_calls [Stream.Direct; Stream.PageUnload; Stream.Direct] st1 = Ok st3
    /\ Stream.leave_events st1 = count_events "leave_stream" []
    /\ Stream.leave_events st2 = S (Stream.leave_events st1)
    /\ Stream.leave_events st3 = S (Stream.leave_events st1)
    /\ Stream.socket st3 =
         Some ([] ++
               [Emit "join_stream"
                  [("stream_id", Number 42);
                   ("username",
                    or_else (Stream.sessionUsername Samples.stream_page)
                            (Str (lit "Anonymous_" ++ lit "k3j9x2m1q")))];
                Emit "leave_stream"
                  [("stream_id", Number 42);
                   ("username",
                    or_else (Stream.sessionUsername Samples.stream_page)
                            (Str (lit "Anonymous")))]])
    /\ Stream.currentStreamId st2 = Null
    /\ Stream.currentStreamId st3 = Null
    /\ Stream.leaveStreamRoom st3 = Ok st3.
Proof.
  apply (@C6_leave_emits_once (lit "k3j9x2m1q") (Number 42) Samples.stream_page []
           Stream.Direct [Stream.PageUnload; Stream.Direct]); reflexivity.
Defined.

(* ================================================================== *)
(** ** Sending a chat message *)
(* ================================================================== *)

Section SendFacts.

Import Chat.

Lemma truthy_Str_nonempty (s : jsstring) : s <> [] -> truthy (Str s) = true.
Proof. destruct s; [congruence | reflexivity]. Qed.

(** The accepting path. *)
Lemma sendChatMessage_accepts (st : page) (typed : jsstring) (o : outbox) :
  chatInput st = Some typed -> socket st = Some o ->
  trim typed <> [] -> isConnectedToChat st = true ->
  List.length (trim typed) <= 500 ->
  sendChatMessage st = Ok (sent (trim typed) o st).
Proof.
  intros Hi Hs Hne Hc Hlen. unfold sendChatMessage. rewrite Hi.
  rewrite (truthy_Str_nonempty Hne), Hc. simpl.
  destruct (Nat.ltb_spec 500 (List.length (trim typed))) as [Hgt|_]; [lia|].
  unfold emit. rewrite Hs. reflexivity.
Qed.

(** The three rejecting paths. *)
Lemma sendChatMessage_rejects (st : page) (typed : jsstring) :
  chatInput st = Some typed ->
  trim typed = [] \/ isConnectedToChat st = false
    \/ 500 < List.length (trim typed) ->
  exists st', sendChatMessage st = Ok st'
              /\ socket st' = socket st /\ chatInput st' = Some typed.
Proof.
  intros Hi Hcase. unfold sendChatMessage. rewrite Hi.
  destruct (trim typed) as [|c m] eqn:Em.
  - exists st. simpl. auto.
  - simpl truthy. cbv [negb].
    destruct (isConnectedToChat st) eqn:Ec.
    + destruct (Nat.ltb_spec 500 (List.length (c :: m))) as [Hgt|Hle].
      * eexists. split; [reflexivity|]. simpl. auto.
      * destruct Hcase as [H|[H|H]]; [discriminate | discriminate | lia].
    + eexists. split; [reflexivity|]. simpl. auto.
Qed.

(** C5. When the trimmed content of the input field is empty,
    [sendChatMessage] returns at once: the page, and with it the
    socket, is left as it was, so no send_message event is emitted. *)
Theorem C5_blank_message_not_sent (st : page) (typed : jsstring) :
  chatInput st = Some typed -> trim typed = [] ->
  sendChatMessage st = Ok st
  /\ count_events "send_message" (outbox_of (state_of (sendChatMessage st)))
     = count_events "send_message" (outbox_of st).
Proof.
  intros Hi He.
  assert (E : sendChatMessage st = Ok st).
  { unfold sendChatMessage. rewrite Hi, He. reflexivity. }
  rewrite E. auto.
Qed.


(** C10. [sendChatMessage] clears the input field exactly when it emits:
    a non-empty trimmed message of at most 500 code units, on a
    connected page, is emitted and the field is emptied; when the
    trimmed message is empty, the page is not connected or the message
    is longer than 500, the call returns with the socket and the field
    as they were. *)
Theorem C10_cleared_iff_sent (st : page) (typed : jsstring) :
  chatInput st = Some typed ->
  (forall o, socket st = Some o ->
     trim typed <> [] -> isConnectedToChat st = true ->
     List.length (trim typed) <= 500 ->
     exists st', sendChatMessage st = Ok st'
       /\ socket st' =
            Some (o ++ [Emit "send_message"
                          [("stream_id", currentStreamId st);
                           ("message", Str (trim typed))]])
       /\ chatInput st' = Some [])
  /\ (trim typed = [] \/ isConnectedToChat st = false
        \/ 500 < List.length (trim typed) ->
      exists st', sendChatMessage st = Ok st'
        /\ socket st' = socket st /\ chatInput st' = Some typed).
Proof.
  intros Hi. split.
  - intros o Hs Hne Hc Hlen. exists (sent (trim typed) o st).
    split; [apply sendChatMessage_accepts; auto|]. split; reflexivity.
  - apply sendChatMessage_rejects; exact Hi.
Qed.

End SendFacts.

Lemma C5_blank_message_not_sent_witness :
  Chat.sendChatMessage (Samples.chat_page true (lit "   ")) =
    Ok (Samples.chat_page true (lit "   "))
  /\ count_events "send_message"
       (Chat.outbox_of
          (state_of (Chat.sendChatMessage (Samples.chat_page true (lit "   ")))))
     = count_events "send_message"
         (Chat.outbox_of (Samples.chat_page true (lit "   "))).
Proof.
  apply (@C5_blank_message_not_sent (Samples.chat_page true (lit "   ")) (lit "   "));
    reflexivity.
Defined.



Lemma C10_cleared_iff_sent_witness :
  (exists st', Chat.sendChatMessage (Samples.chat_page true (lit " hi ")) = Ok st'
     /\ Chat.socket st' =
          Some ([] ++ [Emit "send_message"
                         [("stream_id", Number 42);
                          ("message", Str (trim (lit " hi ")))]])
     /\ Chat.chatInput st' = Some [])
  /\ (exists st', Chat.sendChatMessage (Samples.chat_page false (lit " hi ")) = Ok st'
        /\ Chat.socket st' = Some []
        /\ Chat.chatInput st' = Some (lit " hi ")).
Proof.
  split.
  - apply (proj1 (@C10_cleared_iff_sent (Samples.chat_page true (lit " hi "))
                    (lit " hi ") eq_refl) []).
    + reflexivity.
    + vm_compute. discriminate.
    + reflexivity.
    + vm_compute. lia.
  - apply (proj2 (@C10_cleared_iff_sent (Samples.chat_page false (lit " hi "))
                    (lit " hi ") eq_refl)).
    right. left. reflexivity.
Defined.

(* ================================================================== *)
(** ** The message list and its limit *)
(* ================================================================== *)

Section RenderFacts.

Import Chat.

Variable toLocaleTimeString : value -> jsstring.

Lemma querySelectorAll_chat_app (c d : list node) :
  querySelectorAll_chat (c ++ d)
  = querySelectorAll_chat c ++ querySelectorAll_chat d.
Proof. apply filter_app. Qed.


End RenderFacts.

(* ================================================================== *)
(** ** Escaping *)
(* ================================================================== *)

Section EscapeFacts.

Import Chat.

Lemma escapeHtml_Str (s : jsstring) : escapeHtml (Str s) = escape_text s.
Proof.
  unfold escapeHtml, set_textContent, createElement. simpl.
  destruct s as [|c s]; [reflexivity|].
  unfold innerHTML. simpl. apply app_nil_r.
Qed.

(** The four units that are replaced, and the units that are kept. *)
Lemma escape_unit_cases (c : code_unit) :
  (c = 38%N /\ escape_unit c = lit "&amp;")
  \/ (c = 160%N /\ escape_unit c = lit "&nbsp;")
  \/ (c = 60%N /\ escape_unit c = lit "&lt;")
  \/ (c = 62%N /\ escape_unit c = lit "&gt;")
  \/ (c <> 38%N /\ c <> 160%N /\ c <> 60%N /\ c <> 62%N /\ escape_unit c = [c]).
Proof.
  unfold escape_unit.
  destruct (N.eqb_spec c 38); [auto|].
  destruct (N.eqb_spec c 160); [auto|].
  destruct (N.eqb_spec c 60); [auto 6|].
  destruct (N.eqb_spec c 62); [auto 6|].
  do 4 right. auto.
Qed.


Lemma text_of_markup_escape_unit (c : code_unit) (rest : jsstring) :
  text_of_markup_from 0 (escape_unit c ++ rest)
  = c :: text_of_markup_from 0 rest.
Proof.
  destruct (escape_unit_cases c)
    as [[C E]|[[C E]|[[C E]|[[C E]|(H38 & _ & _ & _ & E)]]]]; rewrite E.
  - subst c. reflexivity.
  - subst c. reflexivity.
  - subst c. reflexivity.
  - subst c. reflexivity.
  - simpl. apply N.eqb_neq in H38. rewrite H38. reflexivity.
Qed.

Lemma text_of_markup_escape_text (s : jsstring) :
  text_of_markup (escape_text s) = s.
Proof.
  unfold text_of_markup, escape_text.
  induction s as [|c s IH]; simpl; [reflexivity|].
  rewrite text_of_markup_escape_unit, IH. reflexivity.
Qed.

End EscapeFacts.

(* ================================================================== *)
(** ** Presence, blocked messages, deleted messages *)
(* ================================================================== *)

Section ListenerFacts.

Import Chat.

Variable toLocaleTimeString : value -> jsstring.

Lemma string_of_Z_nonempty (z : Z) : string_of_Z z <> [].
Proof.
  unfold string_of_Z, NilZero.string_of_int.
  destruct (Z.to_int z) as [d|d].
  - destruct d; discriminate.
  - discriminate.
Qed.

Lemma or_else_Number (z : Z) : or_else (Number z) (Number 0) = Number z.
Proof.
  unfold or_else. simpl.
  destruct (Z.eqb_spec z 0) as [E|E]; simpl; [subst; reflexivity | reflexivity].
Qed.

(** The counter shows the decimal numeral of the count. *)
Lemma set_textContent_Number (z : Z) (e : node) :
  set_textContent (Number z) e = set_children [Text (string_of_Z z)] e.
Proof.
  unfold set_textContent. simpl.
  destruct (string_of_Z z) eqn:E; [|reflexivity].
  exfalso. exact (string_of_Z_nonempty z E).
Qed.








End ListenerFacts.


(* ================================================================== *)
(** ** The document the browser holds: the parser, the message list,
       escaping, presence and alerts *)
(* ================================================================== *)

Section ParserFacts.

Lemma run_app (a b : jsstring) :
  forall st out,
    run st out (a ++ b)
    = match run st out a with
      | Some (st', out') => run st' out' b
      | None => None
      end.
Proof.
  induction a as [|c a IH]; intros st out; simpl; [reflexivity|].
  destruct (step st c) as [[st' t]|]; [apply IH | reflexivity].
Qed.


Lemma run_data (h : jsstring) :
  Forall (fun c => c <> 60%N /\ c <> 0%N /\ c <> 13%N) h ->
  forall text out, run (Data text) out h = Some (Data (text ++ h), out).
Proof.
  induction 1 as [|c h (H60 & H0 & H13) _ IH]; intros text out; simpl.
  - rewrite app_nil_r. reflexivity.
  - unfold step.
    apply N.eqb_neq in H60, H0, H13. rewrite H0, H13, H60. simpl.
    rewrite IH, <- app_assoc. reflexivity.
Qed.



End ParserFacts.

Section TemplateFacts.

Lemma decode_from_escape_unit (c : code_unit) (rest : jsstring) :
  decode_from 0 (escape_unit c ++ rest) = option_map (cons c) (decode_from 0 rest).
Proof.
  destruct (escape_unit_cases c)
    as [[C E]|[[C E]|[[C E]|[[C E]|(H38 & _ & _ & _ & E)]]]]; rewrite E.
  - subst c. reflexivity.
  - subst c. reflexivity.
  - subst c. reflexivity.
  - subst c. reflexivity.
  - simpl. apply N.eqb_neq in H38. rewrite H38. reflexivity.
Qed.


Lemma run_data_escape_text (s : jsstring) :
  clean s ->
  forall text out,
    run (Data text) out (escape_text s) = Some (Data (text ++ escape_text s), out).
Proof.
  intros H. apply run_data. unfold escape_text.
  induction H as [|c s Hc _ IH]; simpl; [constructor|].
  apply Forall_app. split; [|exact IH].
  unfold clean_unit in Hc. apply negb_true_iff, orb_false_iff in Hc.
  destruct Hc as [H0 H13]. apply N.eqb_neq in H0, H13.
  destruct (escape_unit_cases c)
    as [[_ E]|[[_ E]|[[_ E]|[[_ E]|(_ & _ & H60 & _ & E)]]]]; rewrite E;
    repeat constructor; try discriminate; assumption.
Qed.

Lemma escapeHtml_textContent (v : value) :
  Chat.escapeHtml v = escape_text (textContent_string v).
Proof.
  unfold Chat.escapeHtml, set_textContent, createElement.
  destruct (textContent_string v) as [|c s]; [reflexivity|].
  unfold innerHTML. simpl. apply app_nil_r.
Qed.



Variable toLocaleTimeString : value -> jsstring.


Lemma text_nodes_no_element (sel : selector) (s : jsstring) :
  flat_map (subtree_matches sel) (text_nodes s) = [].
Proof. destruct s; reflexivity. Qed.


End TemplateFacts.

Section RemovalFacts.

Variable sel : selector.








End RemovalFacts.

Section BrowserListFacts.

Variable toLocaleTimeString : value -> jsstring.

Local Abbreviation chat := (ByClass Chat.chat_message_class).







End BrowserListFacts.

Section SystemMessageFacts.

Lemma decode_from_escape_text_app (s rest : jsstring) :
  decode_from 0 (escape_text s ++ rest) = option_map (app s) (decode_from 0 rest).
Proof.
  unfold escape_text.
  induction s as [|c s IH]; simpl.
  - destruct (decode_from 0 rest); reflexivity.
  - rewrite <- app_assoc, decode_from_escape_unit, IH.
    destruct (decode_from 0 rest); reflexivity.
Qed.

Lemma text_nodes_app_cons (a : jsstring) (c : code_unit) (b : jsstring) :
  text_nodes (a ++ c :: b) = [Text (a ++ c :: b)].
Proof. destruct a; reflexivity. Qed.

Lemma parse_system_message_markup (text : jsstring) :
  clean text ->
  parse_fragment (Browser.system_message_markup (escape_text text))
  = Some (system_message_children text).
Proof.
  intros Hb.
  unfold parse_fragment, tokenize, Browser.system_message_markup.
  cbn. rewrite run_app, (run_data_escape_text Hb). cbn.
  unfold decode_text. rewrite <- !app_assoc. cbn [app].
  rewrite decode_from_escape_text_app. cbn.
  rewrite text_nodes_app_cons. reflexivity.
Qed.

Lemma system_message_element_clean (text : jsstring) :
  clean text -> Browser.system_message_element text = notice_element text.
Proof.
  intros Hb. unfold Browser.system_message_element, set_innerHTML.
  rewrite escapeHtml_textContent.
  change (textContent_string (Str text)) with text.
  rewrite (parse_system_message_markup Hb). reflexivity.
Qed.

End SystemMessageFacts.

Section BrowserClaims.

Variable toLocaleTimeString : value -> jsstring.

Local Abbreviation chat := (ByClass Chat.chat_message_class).



End BrowserClaims.

Section ParagraphFacts.

Lemma run_out (s : jsstring) :
  forall st out,
    run st out s
    = match run st [] s with
      | Some (st', o) => Some (st', out ++ o)
      | None => None
      end.
Proof.
  induction s as [|c s IH]; intros st out; simpl.
  - rewrite app_nil_r. reflexivity.
  - destruct (step st c) as [[st' t]|]; [|reflexivity].
    rewrite (IH st' (emit_token out t)), (IH st' (emit_token [] t)).
    destruct (run st' [] s) as [[st'' o]|]; [|reflexivity].
    destruct t; simpl; rewrite <- ?app_assoc; reflexivity.
Qed.










End ParagraphFacts.

Section BodyFacts.


Variable toLocaleTimeString : value -> jsstring.

Local Abbreviation chat := (ByClass Chat.chat_message_class).




End BodyFacts.

Section PresenceFacts.

Lemma clean_app (a b : jsstring) : clean a -> clean b -> clean (a ++ b).
Proof. intros Ha Hb. apply Forall_app. split; assumption. Qed.

Lemma textContent_notice_element (text : jsstring) :
  textContent (notice_element text) = indent 8 ++ indent 12 ++ text ++ indent 8 ++ indent 4.
Proof.
  unfold textContent, notice_element, system_message_children. simpl.
  rewrite app_nil_r, <- !app_assoc. reflexivity.
Qed.

(** C7. On a page that has the counter and the container, the
    user_joined listener, given a username and a user count (a safe
    integer), sets the text of the counter to the decimal numeral of
    the count and appends, as last child of the container, the system
    message element whose text is the username followed by
    ' joined the chat' (between the line breaks and indentation of the
    template); the user_left listener does the same with
    ' left the chat'. *)
Theorem C7_presence_updates
    (st : Chat.page) (counter : node) (c : list node)
    (username : jsstring) (user_count : Z) :
  Chat.chatUserCount st = Some counter ->
  Chat.chatMessages st = Some c ->
  safe_integer user_count ->
  clean username ->
  (Chat.chatUserCount
     (Browser.on_user_joined
        (Chat.PresencePayload (Str username) (Number user_count)) st)
   = Some (set_children [Text (string_of_Z user_count)] counter)
   /\ Chat.chatMessages
        (Browser.on_user_joined
           (Chat.PresencePayload (Str username) (Number user_count)) st)
      = Some (c ++ [notice_element (username ++ lit " joined the chat")])
   /\ textContent (notice_element (username ++ lit " joined the chat"))
      = indent 8 ++ indent 12 ++ username ++ lit " joined the chat"
        ++ indent 8 ++ indent 4)
  /\ (Chat.chatUserCount
        (Browser.on_user_left
           (Chat.PresencePayload (Str username) (Number user_count)) st)
      = Some (set_children [Text (string_of_Z user_count)] counter)
      /\ Chat.chatMessages
           (Browser.on_user_left
              (Chat.PresencePayload (Str username) (Number user_count)) st)
         = Some (c ++ [notice_element (username ++ lit " left the chat")])
      /\ textContent (notice_element (username ++ lit " left the chat"))
         = indent 8 ++ indent 12 ++ username ++ lit " left the chat"
           ++ indent 8 ++ indent 4).
Proof.
  intros Hu Hc _ Hn.
  assert (J : clean (username ++ lit " joined the chat")).
  { apply clean_app; [exact Hn | repeat constructor]. }
  assert (L : clean (username ++ lit " left the chat")).
  { apply clean_app; [exact Hn | repeat constructor]. }
  unfold Browser.on_user_joined, Browser.on_user_left, Browser.addSystemMessage,
    Chat.updateChatUserCount.
  cbn [Chat.pres_user_count Chat.pres_username ToString].
  rewrite Hu, or_else_Number, set_textContent_Number.
  cbn -[Browser.system_message_element notice_element textContent lit indent].
  rewrite Hc.
  cbn -[Browser.system_message_element notice_element textContent lit indent].
  rewrite (system_message_element_clean J), (system_message_element_clean L).
  rewrite !textContent_notice_element, <- !app_assoc.
  repeat split; reflexivity.
Qed.

End PresenceFacts.

Lemma C7_presence_updates_witness :
  (Chat.chatUserCount
     (Browser.on_user_joined
        (Chat.PresencePayload (Str (lit "bob")) (Number 2))
        (Samples.chat_page true []))
   = Some (Elem "span" [("id", lit "chatUserCount")] [Text (lit "2")])
   /\ Chat.chatMessages
        (Browser.on_user_joined
           (Chat.PresencePayload (Str (lit "bob")) (Number 2))
           (Samples.chat_page true []))
      = Some [notice_element (lit "bob joined the chat")]
   /\ textContent (notice_element (lit "bob joined the chat"))
      = indent 8 ++ indent 12 ++ lit "bob joined the chat" ++ indent 8 ++ indent 4)
  /\ (Chat.chatUserCount
        (Browser.on_user_left
           (Chat.PresencePayload (Str (lit "bob")) (Number 2))
           (Samples.chat_page true []))
      = Some (Elem "span" [("id", lit "chatUserCount")] [Text (lit "2")])
      /\ Chat.chatMessages
           (Browser.on_user_left
              (Chat.PresencePayload (Str (lit "bob")) (Number 2))
              (Samples.chat_page true []))
         = Some [notice_element (lit "bob left the chat")]
      /\ textContent (notice_element (lit "bob left the chat"))
         = indent 8 ++ indent 12 ++ lit "bob left the chat" ++ indent 8 ++ indent 4).
Proof.
  apply (@C7_presence_updates (Samples.chat_page true [])
           (Elem "span" [("id", lit "chatUserCount")] [Text (lit "0")]) []
           (lit "bob") 2).
  - reflexivity.
  - reflexivity.
  - unfold safe_integer. simpl. lia.
  - repeat constructor.
Defined.

(** C3, what the code does when usernames carry markup: the username
    is written into [innerHTML] as it is, so the elements it holds are
    counted by [querySelectorAll('.chat-message')] with the messages.
    After 51 calls whose username is an element of class chat-message,
    on an empty container, 100 elements have the class and only 50
    messages are left, those of calls 2 to 51: the first was removed
    although 51 is below the limit.  After a call without markup and a
    call whose username holds 200 such elements, 201 elements have the
    class, and the only message left is the second. *)
Theorem C3_markup_username_breaks_limit :
  List.length (Samples.nested_entries 51) = 51
  /\ List.length
       (Browser.shown_messages
          (Browser.forEach_addChatMessage Samples.clock (Samples.nested_entries 51)
             (Samples.chat_page true []))) = 100
  /\ List.map body_text
       (Browser.container
          (Browser.forEach_addChatMessage Samples.clock (Samples.nested_entries 51)
             (Samples.chat_page true [])))
     = List.map Some (Samples.numerals 2 50)
  /\ List.length
       (Browser.shown_messages
          (Browser.forEach_addChatMessage Samples.clock
             [Samples.entry 1; Samples.crowd_entry 200] (Samples.chat_page true [])))
     = 201
  /\ List.map body_text
       (Browser.container
          (Browser.forEach_addChatMessage Samples.clock
             [Samples.entry 1; Samples.crowd_entry 200] (Samples.chat_page true [])))
     = [Some (lit "hello")].
Proof.
  split; [vm_compute; reflexivity|]. split; [vm_compute; reflexivity|].
  split; [vm_compute; reflexivity|]. split; vm_compute; reflexivity.
Qed.

(** C8, what the code does with a reason that is markup: the
    message_blocked listener writes the reason into [innerHTML] as it
    is.  For the reason [<b>spam</b>] the alert holds a [b] element and
    reads 'Message blocked: spam'; the tags are not shown.  Passed
    through [escapeHtml], as the body of a chat message is, the same
    reason would be shown as the text it is. *)
Theorem C8_reason_parsed_as_markup :
  Browser.on_message_blocked (Str (lit "<b>spam</b>")) (Samples.chat_page true [])
  = Chat.with_body
      [Elem "div"
         [("class", lit "alert alert-warning alert-dismissible fade show position-fixed");
          ("style", lit "top: 20px; right: 20px; z-index: 9999; min-width: 300px;")]
         [Text (indent 12 ++ lit "Message blocked: ");
          Elem "b" [] [Text (lit "spam")];
          Text (indent 12);
          Elem "button" [("type", lit "button"); ("class", lit "btn-close");
                         ("data-bs-dismiss", lit "alert")] [];
          Text (indent 8)]]
      (Samples.chat_page true [])
  /\ List.map textContent
       (Chat.body (Browser.on_message_blocked (Str (lit "<b>spam</b>"))
                     (Samples.chat_page true [])))
     = [indent 12 ++ lit "Message blocked: spam" ++ indent 12 ++ indent 8]
  /\ set_innerHTML
       (Browser.alert_markup
          (Chat.escapeHtml (Str (lit "Message blocked: <b>spam</b>"))))
     = [Text (indent 12 ++ lit "Message blocked: <b>spam</b>" ++ indent 12);
        Elem "button" [("type", lit "button"); ("class", lit "btn-close");
                       ("data-bs-dismiss", lit "alert")] [];
        Text (indent 8)].
Proof.
  split; [vm_compute; reflexivity|]. split; vm_compute; reflexivity.
Qed.









(* ================================================================== *)
(** ** Runs on sample pages *)
(* ================================================================== *)

Example trim_sample : trim (lit "  hi there  ") = lit "hi there".
Proof. reflexivity. Qed.

Example string_of_Z_samples :
  string_of_Z 0 = lit "0" /\ string_of_Z 42 = lit "42"
  /\ string_of_Z (-7) = lit "-7".
Proof. repeat split; reflexivity. Qed.

Example escapeHtml_sample :
  Chat.escapeHtml (Str (lit "<b>R&D</b>")) = lit "&lt;b&gt;R&amp;D&lt;/b&gt;"
  /\ Chat.escapeHtml Undefined = lit ""
  /\ Chat.escapeHtml (Number 5) = lit "5".
Proof. repeat split; reflexivity. Qed.

Example classList_add_sample :
  classList_add (lit "text-muted") [("class", lit "chat-message  mb-2")]
  = [("class", lit "chat-message mb-2 text-muted")].
Proof. reflexivity. Qed.

(** The fragment parser: text with a bare ampersand and with
    references, an element with an attribute; no answer on markup that
    the HTML parser would repair (a [div] inside a [p], an end tag
    without its start tag, a reference it does not know). *)
Example parse_fragment_samples :
  parse_fragment (lit "Tom & Jerry &lt;3 &amp; co")
  = Some [Text (lit "Tom & Jerry <3 & co")]
  /\ parse_fragment
       (lit "hi <b class=" ++ Browser.quoted (lit "x y") ++ lit ">there</b>")
     = Some [Text (lit "hi "); Elem "b" [("class", lit "x y")] [Text (lit "there")]]
  /\ parse_fragment (lit "<p><div>x</div></p>") = None
  /\ parse_fragment (lit "</strong><p>fake</p>") = None
  /\ parse_fragment (lit "&copy;") = None.
Proof.
  split; [vm_compute; reflexivity|]. split; [vm_compute; reflexivity|].
  split; [vm_compute; reflexivity|]. split; vm_compute; reflexivity.
Qed.

(** A username with an ampersand is shown as it is, and reads back
    through [innerHTML] with the ampersand as a reference. *)
Example username_ampersand_sample :
  option_map children_of
    (querySelector (ByTag "strong")
       (Browser.chat_message_element Samples.clock (Str (lit "Tom & Jerry"))
          (Str (lit "hello")) (Number 1700000000000) Undefined))
  = Some [Text (lit "Tom & Jerry")]
  /\ option_map innerHTML
       (querySelector (ByTag "strong")
          (Browser.chat_message_element Samples.clock (Str (lit "Tom & Jerry"))
             (Str (lit "hello")) (Number 1700000000000) Undefined))
     = Some (lit "Tom &amp; Jerry").
Proof. split; vm_compute; reflexivity. Qed.

(** A message rendered by [addChatMessage], then a message_deleted event
    for it: the paragraph of the message still holds the body. *)
Example message_deleted_sample :
  Chat.handle Samples.clock (Number 42) (Chat.message_deleted (Str (lit "1")))
    (Chat.addChatMessage Samples.clock (Str (lit "alice")) (Str (lit "hello"))
       (Number 1700000000000) Undefined (Samples.chat_page true []))
  = Ok (Chat.addChatMessage Samples.clock (Str (lit "alice")) (Str (lit "hello"))
          (Number 1700000000000) Undefined (Samples.chat_page true []))
  /\ List.map (fun n => option_map innerHTML (querySelector (ByTag "p") n))
       (Chat.shown_messages
          (state_of
             (Chat.handle Samples.clock (Number 42)
                (Chat.message_deleted (Str (lit "1")))
                (Chat.addChatMessage Samples.clock (Str (lit "alice"))
                   (Str (lit "hello")) (Number 1700000000000) Undefined
                   (Samples.chat_page true [])))))
     = [Some (lit "hello")].
Proof. split; vm_compute; reflexivity. Qed.

(** An element that does carry the id is marked and keeps its place. *)
Example removeMessage_tagged_sample :
  Chat.removeMessage_each (Str (lit "7"))
    [Chat.system_message_element (lit "bob joined the chat");
     Elem "div" [("class", lit "chat-message mb-2"); ("data-message-id", lit "7")]
       [Elem "p" [("class", lit "mb-0")] [Raw (lit "hello")]];
     Elem "div" [("class", lit "chat-message mb-2"); ("data-message-id", lit "8")]
       [Elem "p" [("class", lit "mb-0")] [Raw (lit "bye")]]]
  = ([Chat.system_message_element (lit "bob joined the chat");
      Elem "div" [("class", lit "chat-message mb-2 text-muted");
                  ("data-message-id", lit "7")]
        [Elem "p" [("class", lit "mb-0")]
           [Elem "em" [] [Text (lit "[Message deleted]")]]];
      Elem "div" [("class", lit "chat-message mb-2"); ("data-message-id", lit "8")]
        [Elem "p" [("class", lit "mb-0")] [Raw (lit "bye")]]],
     true).
Proof. vm_compute. reflexivity. Qed.

(** A message_deleted payload without message_id: the id is undefined,
    which is what [dataset.messageId] reads on every rendered message,
    so every message is marked. *)
Example message_deleted_without_id_sample :
  List.map (fun n => option_map innerHTML (querySelector (ByTag "p") n))
    (Chat.shown_messages
       (state_of
          (Chat.handle Samples.clock (Number 42) (Chat.message_deleted Undefined)
             (Chat.forEach_addChatMessage Samples.clock (Samples.entries 2)
                (Samples.chat_page true [])))))
  = [Some (lit "<em>[Message deleted]</em>");
     Some (lit "<em>[Message deleted]</em>")].
Proof. vm_compute. reflexivity. Qed.

(** Without a #chatInput element [sendChatMessage] throws before any
    effect; without the container [addChatMessage] returns at once. *)
Example missing_elements_sample :
  Chat.sendChatMessage
    (Chat.with_chatInput None (Samples.chat_page true (lit "hi")))
  = Throw (Chat.with_chatInput None (Samples.chat_page true (lit "hi")))
  /\ Chat.addChatMessage Samples.clock (Str (lit "alice")) (Str (lit "hello"))
       (Number 1700000000000) Undefined
       (Chat.with_chatMessages None (Samples.chat_page true []))
     = Chat.with_chatMessages None (Samples.chat_page true []).
Proof. split; reflexivity. Qed.

(* ================================================================== *)
(** ** Further properties: what is sent *)
(* ================================================================== *)

Section TrimFacts.

Lemma trimStart_fixed (c : code_unit) (r : jsstring) :
  isWhiteSpace c = false -> trimStart (c :: r) = c :: r.
Proof. intros H. simpl. rewrite H. reflexivity. Qed.

(** What [trimStart] strips is white space; what it leaves does not
    start with white space. *)
Lemma trimStart_split (s : jsstring) :
  exists w, s = w ++ trimStart s
            /\ Forall (fun c => isWhiteSpace c = true) w
            /\ (trimStart s = []
                \/ exists c r, trimStart s = c :: r /\ isWhiteSpace c = false).
Proof.
  induction s as [|c s (w & E & W & H)].
  - exists []. simpl. auto.
  - simpl. destruct (isWhiteSpace c) eqn:Ec.
    + exists (c :: w). simpl. rewrite <- E. auto.
    + exists []. simpl. split; [reflexivity|]. split; [constructor|].
      right. eauto.
Qed.

Lemma trimStart_idempotent (s : jsstring) : trimStart (trimStart s) = trimStart s.
Proof.
  destruct (trimStart_split s) as (_ & _ & _ & [E | (c & r & E & H)]); rewrite E.
  - reflexivity.
  - apply trimStart_fixed; exact H.
Qed.

Lemma trim_trimmed (s : jsstring) :
  trimStart (trim s) = trim s /\ trimEnd (trim s) = trim s.
Proof.
  unfold trim, trimEnd.
  set (t := trimStart s).
  destruct (trimStart_split (rev t)) as (w & E & W & H).
  set (u := trimStart (rev t)) in *.
  split.
  - destruct H as [Hu | (c & r & Hu & Hc)].
    + rewrite Hu. reflexivity.
    + assert (Et : t = rev u ++ rev w).
      { rewrite <- (rev_involutive t), E, rev_app_distr. reflexivity. }
      destruct (trimStart_split s) as (_ & _ & _ & [Es | (c' & r' & Es & Hc')]);
        fold t in Es.
      * rewrite Es in Et. symmetry in Et. apply app_eq_nil in Et.
        destruct Et as [Et _]. rewrite Et. reflexivity.
      * destruct (rev u) as [|x ru] eqn:Eru; [reflexivity|].
        rewrite Es in Et. simpl in Et. injection Et as <- _.
        apply trimStart_fixed; exact Hc'.
  - rewrite rev_involutive. unfold u. rewrite trimStart_idempotent. reflexivity.
Qed.

End TrimFacts.

Section SentFacts.

Import Chat.

(** X1. Whatever the page and whatever was typed, [sendChatMessage]
    either leaves the socket as it was or emits one send_message event
    that carries the current stream id and the typed text with the white
    space at both ends removed, of 1 to 500 code units. *)
Theorem sendChatMessage_emits_only_well_formed (st : page) :
  socket (state_of (sendChatMessage st)) = socket st
  \/ exists typed o,
       chatInput st = Some typed /\ socket st = Some o
       /\ isConnectedToChat st = true
       /\ sendChatMessage st = Ok (sent (trim typed) o st)
       /\ socket (sent (trim typed) o st)
          = Some (o ++ [Emit "send_message"
                          [("stream_id", currentStreamId st);
                           ("message", Str (trim typed))]])
       /\ 1 <= List.length (trim typed) <= 500
       /\ trimStart (trim typed) = trim typed
       /\ trimEnd (trim typed) = trim typed.
Proof.
  destruct (chatInput st) as [typed|] eqn:Hi.
  2:{ left. unfold sendChatMessage. rewrite Hi. reflexivity. }
  destruct (trim typed) as [|c m] eqn:Em.
  { left. destruct (@sendChatMessage_rejects st typed Hi) as (st' & E & S & _);
      [left; exact Em|]. rewrite E. exact S. }
  destruct (isConnectedToChat st) eqn:Ec.
  2:{ left. destruct (@sendChatMessage_rejects st typed Hi) as (st' & E & S & _);
        [right; left; exact Ec|]. rewrite E. exact S. }
  destruct (Nat.ltb_spec 500 (List.length (trim typed))) as [Hgt|Hle].
  { left. destruct (@sendChatMessage_rejects st typed Hi) as (st' & E & S & _);
      [right; right; exact Hgt|]. rewrite E. exact S. }
  destruct (socket st) as [o|] eqn:Hs.
  2:{ left. rewrite Em in Hle. apply Nat.ltb_ge in Hle.
      unfold sendChatMessage, emit. rewrite Hi, Em, Ec, Hle, Hs.
      simpl. exact Hs. }
  right. exists typed, o.
  assert (Hne : trim typed <> []) by (rewrite Em; discriminate).
  split; [reflexivity|]. split; [reflexivity|]. split; [reflexivity|].
  split; [apply sendChatMessage_accepts; auto|].
  split; [reflexivity|].
  split; [rewrite Em in *; simpl in *; lia|].
  apply trim_trimmed.
Qed.

End SentFacts.

(* ================================================================== *)
(** ** Further properties: the listeners over a run of events *)
(* ================================================================== *)

Section RunFacts.

Import Chat.

Lemma sendChatMessage_disconnected (st : page) :
  isConnectedToChat st = false ->
  socket (state_of (sendChatMessage st)) = socket st.
Proof.
  intros C. destruct (chatInput st) as [typed|] eqn:Hi.
  - destruct (@sendChatMessage_rejects st typed Hi) as (st' & E & S & _);
      [right; left; exact C|].
    rewrite E. exact S.
  - unfold sendChatMessage. rewrite Hi. reflexivity.
Qed.

Variable toLocaleTimeString : value -> jsstring.
Variable streamId : value.

Lemma same_script_state_refl (st : page) : same_script_state st st.
Proof. repeat split. Qed.

Lemma same_script_state_trans (a b c : page) :
  same_script_state a b -> same_script_state b c -> same_script_state a c.
Proof.
  intros (S1 & C1 & I1) (S2 & C2 & I2).
  repeat split; congruence.
Qed.

Lemma hideChatPlaceholder_script (st : page) :
  same_script_state st (hideChatPlaceholder st).
Proof. unfold hideChatPlaceholder. destruct (chatPlaceholder st); repeat split. Qed.

Lemma showChatPlaceholder_script (message : jsstring) (st : page) :
  same_script_state st (showChatPlaceholder message st).
Proof. unfold showChatPlaceholder. destruct (chatPlaceholder st); repeat split. Qed.

Lemma showChatStatus_script (message type : jsstring) (st : page) :
  same_script_state st (showChatStatus message type st).
Proof. unfold showChatStatus. destruct (chatPlaceholder st); repeat split. Qed.

Lemma updateChatUserCount_script (count : value) (st : page) :
  same_script_state st (updateChatUserCount count st).
Proof. unfold updateChatUserCount. destruct (chatUserCount st); repeat split. Qed.

Lemma addSystemMessage_script (message : jsstring) (st : page) :
  same_script_state st (addSystemMessage message st).
Proof. unfold addSystemMessage. destruct (chatMessages st); repeat split. Qed.

Lemma showAlert_script (type message : jsstring) (st : page) :
  same_script_state st (showAlert type message st).
Proof. repeat split. Qed.

Lemma addChatMessage_script (username message timestamp isBot : value) (st : page) :
  same_script_state st
    (addChatMessage toLocaleTimeString username message timestamp isBot st).
Proof.
  unfold addChatMessage. destruct (chatMessages st) as [c|]; [|repeat split].
  match goal with |- context [if ?b then _ else _] => destruct b end;
    unfold hideChatPlaceholder; destruct (chatPlaceholder st); repeat split.
Qed.

Lemma forEach_addChatMessage_script (messages : list message_payload) :
  forall st, same_script_state st
               (forEach_addChatMessage toLocaleTimeString messages st).
Proof.
  induction messages as [|m messages IH]; intros st; simpl.
  - apply same_script_state_refl.
  - eapply same_script_state_trans; [|apply IH].
    apply addChatMessage_script.
Qed.

Lemma removeMessage_script (messageId : value) (st : page) :
  same_script_state st (state_of (removeMessage messageId st)).
Proof.
  unfold removeMessage. destruct (chatMessages st) as [c|]; [|repeat split].
  destruct (removeMessage_each messageId c) as [c' ok].
  destruct ok; repeat split.
Qed.

Ltac script_goal st :=
  match goal with
  | |- socket ?x = _ /\ _ => change (same_script_state st x)
  end.

(** The effect of one listener on the socket, the connection flag and
    the input field. *)
Lemma handle_script_state (ev : server_event) (st : page) :
  socket (state_of (handle toLocaleTimeString streamId ev st))
  = (if is_connect ev
     then option_map
            (fun o => o ++ [Emit "join_stream_chat" [("stream_id", streamId)]])
            (socket st)
     else socket st)
  /\ isConnectedToChat (state_of (handle toLocaleTimeString streamId ev st))
     = connected_after [ev] (isConnectedToChat st)
  /\ chatInput (state_of (handle toLocaleTimeString streamId ev st))
     = chatInput st.
Proof.
  destruct ev as [| |uc|ms|d|d|d|r|mid|m];
    cbn [handle state_of is_connect connected_after].
  - destruct (showChatStatus_script (lit "Connected to chat!") (lit "success") st)
      as (S & C & I).
    unfold emit. rewrite S. destruct (socket st); simpl; auto.
  - unfold showChatError.
    match goal with |- context [showChatStatus ?m ?t ?s] =>
      destruct (showChatStatus_script m t s) as (S & C & I) end.
    match goal with |- context [updateChatUserCount ?v ?s] =>
      destruct (updateChatUserCount_script v s) as (S' & C' & I') end.
    rewrite S, I, S', I'. simpl. repeat split.
    rewrite C, C'. reflexivity.
  - match goal with |- context [hideChatPlaceholder ?s] =>
      destruct (hideChatPlaceholder_script s) as (S & C & I) end.
    match goal with |- context [updateChatUserCount ?v ?s] =>
      destruct (updateChatUserCount_script v s) as (S' & C' & I') end.
    rewrite S, I, S', I', C, C'. simpl. repeat split.
  - destruct ms as [[|m0 ms]|]; cbn [state_of]; script_goal st;
      try (apply showChatPlaceholder_script).
    eapply same_script_state_trans;
      [apply hideChatPlaceholder_script|].
    apply (forEach_addChatMessage_script (m0 :: ms)).
  - script_goal st. eapply same_script_state_trans;
      [apply addChatMessage_script | apply hideChatPlaceholder_script].
  - script_goal st. eapply same_script_state_trans;
      [apply updateChatUserCount_script | apply addSystemMessage_script].
  - script_goal st. eapply same_script_state_trans;
      [apply updateChatUserCount_script | apply addSystemMessage_script].
  - script_goal st. apply showAlert_script.
  - script_goal st. apply removeMessage_script.
  - script_goal st. apply showAlert_script.
Qed.

Lemma run_events_app (evs evs' : list server_event) (st : page) :
  run_events toLocaleTimeString streamId (evs ++ evs') st
  = run_events toLocaleTimeString streamId evs'
      (run_events toLocaleTimeString streamId evs st).
Proof. unfold run_events. apply fold_left_app. Qed.

(** X2. Over any run of socket events the listeners emit nothing but
    one join_stream_chat, with the stream id given to [initializeChat],
    for each connect event, and they never touch the input field. *)
Theorem listeners_emit_only_joins (evs : list server_event) :
  forall (st : page) (o : outbox),
    socket st = Some o ->
    socket (run_events toLocaleTimeString streamId evs st)
    = Some (o ++ repeat (Emit "join_stream_chat" [("stream_id", streamId)])
                        (List.length (filter is_connect evs)))
    /\ chatInput (run_events toLocaleTimeString streamId evs st) = chatInput st.
Proof.
  induction evs as [|ev evs IH]; intros st o Hs; simpl.
  - rewrite app_nil_r. auto.
  - destruct (handle_script_state ev st) as (S & _ & I).
    unfold run_events in *. simpl.
    destruct (is_connect ev) eqn:Ec.
    + rewrite Hs in S. simpl in S.
      destruct (IH _ _ S) as (S' & I').
      rewrite S', I', I. simpl. rewrite <- app_assoc. auto.
    + rewrite Hs in S.
      destruct (IH _ _ S) as (S' & I').
      rewrite S', I', I. auto.
Qed.

(** The connection flag follows the last join_success or disconnect. *)
Lemma run_events_connected (evs : list server_event) :
  forall st,
    isConnectedToChat (run_events toLocaleTimeString streamId evs st)
    = connected_after evs (isConnectedToChat st).
Proof.
  induction evs as [|ev evs IH]; intros st; [reflexivity|].
  unfold run_events in *. simpl fold_left. rewrite IH.
  destruct (handle_script_state ev st) as (_ & C & _). rewrite C.
  destruct ev; reflexivity.
Qed.

(** X3. After any run of events in which the last of the join_success
    and disconnect events is a disconnect (or there is none and the page
    was not connected), [sendChatMessage] emits nothing, whatever is
    typed: a message is sent only between a join_success and the next
    disconnect. *)
Theorem no_send_while_disconnected (evs : list server_event) (st : page) :
  connected_after evs (isConnectedToChat st) = false ->
  isConnectedToChat (run_events toLocaleTimeString streamId evs st) = false
  /\ socket (state_of
               (sendChatMessage (run_events toLocaleTimeString streamId evs st)))
     = socket (run_events toLocaleTimeString streamId evs st).
Proof.
  intros H.
  assert (C : isConnectedToChat (run_events toLocaleTimeString streamId evs st)
              = false).
  { rewrite run_events_connected. exact H. }
  split; [exact C|].
  apply sendChatMessage_disconnected. exact C.
Qed.

End RunFacts.

(* ================================================================== *)
(** ** Further properties: the message list over a run of events *)
(* ================================================================== *)

Section ListFacts.

Import Chat.

Variable toLocaleTimeString : value -> jsstring.
Variable streamId : value.

Lemma other_children_remove_first (c : list node) :
  other_children (remove_first_chat c) = other_children c.
Proof.
  unfold other_children.
  induction c as [|n c IH]; simpl; [reflexivity|].
  destruct (matches (ByClass chat_message_class) n) eqn:E; simpl.
  - reflexivity.
  - rewrite E. simpl. rewrite IH. reflexivity.
Qed.

Lemma other_children_addChatMessage (username message timestamp isBot : value)
      (st : page) (c : list node) :
  chatMessages st = Some c ->
  exists c',
    chatMessages (addChatMessage toLocaleTimeString username message timestamp
                                 isBot st) = Some c'
    /\ other_children c' = other_children c.
Proof.
  intros Hc. unfold addChatMessage. rewrite Hc.
  set (el := chat_message_element toLocaleTimeString username message timestamp
                                  (default_false isBot)).
  assert (O : other_children (c ++ [el]) = other_children c).
  { unfold other_children. rewrite filter_app. simpl. apply app_nil_r. }
  match goal with |- context [if ?b then _ else _] => destruct b end.
  - eexists. split; [reflexivity|].
    rewrite other_children_remove_first. exact O.
  - eexists. split; [reflexivity|]. exact O.
Qed.

(** X5. System messages are outside the limit: whatever the number of
    [addChatMessage] calls, the children of the container that are not
    chat messages all stay, in their order; and [addSystemMessage] adds
    one such child without changing the chat messages shown. *)
Theorem system_messages_never_evicted
    (calls : list message_payload) (text : jsstring) :
  forall (st : page) (c : list node),
    chatMessages st = Some c ->
    (exists c',
       chatMessages (forEach_addChatMessage toLocaleTimeString calls st) = Some c'
       /\ other_children c' = other_children c)
    /\ chatMessages (addSystemMessage text st)
       = Some (c ++ [system_message_element text])
    /\ other_children (c ++ [system_message_element text])
       = other_children c ++ [system_message_element text]
    /\ shown_messages (addSystemMessage text st) = shown_messages st.
Proof.
  induction calls as [|m calls IH]; intros st c Hc.
  - split; [exists c; auto|].
    unfold addSystemMessage, shown_messages, other_children. rewrite Hc. simpl.
    rewrite filter_app, querySelectorAll_chat_app. simpl.
    rewrite app_nil_r. auto.
  - destruct (@other_children_addChatMessage (msg_username m) (msg_message m)
                (msg_timestamp m) (msg_is_bot m) st c Hc) as (c1 & H1 & O1).
    destruct (IH _ c1 H1) as ((c2 & H2 & O2) & _).
    destruct (IH st c Hc) as (_ & rest).
    split; [|exact rest].
    exists c2. split; [exact H2|]. congruence.
Qed.

End ListFacts.

(* ================================================================== *)
(** ** Further properties: marking a message as deleted *)
(* ================================================================== *)

Section RedactionFacts.

Import Chat.













End RedactionFacts.

(* ================================================================== *)
(** ** Further properties: counter, placeholder, escaping *)
(* ================================================================== *)

Section DisplayFacts.

Import Chat.

Variable toLocaleTimeString : value -> jsstring.
Variable streamId : value.

Lemma or_else_falsy (v : value) :
  truthy v = false -> or_else v (Number 0) = Number 0.
Proof. intros H. unfold or_else. rewrite H. reflexivity. Qed.

Lemma hideChatPlaceholder_chatUserCount (st : page) :
  chatUserCount (hideChatPlaceholder st) = chatUserCount st.
Proof. unfold hideChatPlaceholder. destruct (chatPlaceholder st); reflexivity. Qed.

Lemma showChatStatus_chatUserCount (message type : jsstring) (st : page) :
  chatUserCount (showChatStatus message type st) = chatUserCount st.
Proof. unfold showChatStatus. destruct (chatPlaceholder st); reflexivity. Qed.

Lemma addSystemMessage_chatUserCount (message : jsstring) (st : page) :
  chatUserCount (addSystemMessage message st) = chatUserCount st.
Proof. unfold addSystemMessage. destruct (chatMessages st); reflexivity. Qed.

Lemma updateChatUserCount_zero (st : page) (counter : node) :
  chatUserCount st = Some counter ->
  chatUserCount (updateChatUserCount (Number 0) st)
  = Some (set_children [Text (lit "0")] counter).
Proof. intros H. unfold updateChatUserCount. rewrite H. reflexivity. Qed.

(** X8. A user count that is missing or otherwise falsy (undefined,
    null, 0, the empty string, false) is shown as 0 by the join_success,
    user_joined and user_left listeners, and the disconnect listener
    resets the counter to 0. *)
Theorem falsy_user_count_shows_zero
    (st : page) (counter : node) (user_count username : value) :
  chatUserCount st = Some counter ->
  truthy user_count = false ->
  chatUserCount
    (state_of (handle toLocaleTimeString streamId (join_success user_count) st))
  = Some (set_children [Text (lit "0")] counter)
  /\ chatUserCount
       (state_of (handle toLocaleTimeString streamId
                    (user_joined (PresencePayload username user_count)) st))
     = Some (set_children [Text (lit "0")] counter)
  /\ chatUserCount
       (state_of (handle toLocaleTimeString streamId
                    (user_left (PresencePayload username user_count)) st))
     = Some (set_children [Text (lit "0")] counter)
  /\ chatUserCount (state_of (handle toLocaleTimeString streamId disconnect st))
     = Some (set_children [Text (lit "0")] counter).
Proof.
  intros Hu Hf. cbn [handle state_of pres_user_count].
  rewrite (or_else_falsy user_count Hf).
  rewrite hideChatPlaceholder_chatUserCount, !addSystemMessage_chatUserCount.
  unfold showChatError. rewrite showChatStatus_chatUserCount.
  assert (Z0 : forall s, chatUserCount s = Some counter ->
                         chatUserCount (updateChatUserCount (Number 0) s)
                         = Some (set_children [Text (lit "0")] counter))
    by (intros s; apply updateChatUserCount_zero).
  repeat split; apply Z0; exact Hu.
Qed.

Lemma addChatMessage_placeholder_hidden
      (username message timestamp isBot : value) (st : page) (ph : placeholder) :
  chatPlaceholder st = Some (hidden_placeholder ph) ->
  chatPlaceholder (addChatMessage toLocaleTimeString username message timestamp
                                  isBot st)
  = Some (hidden_placeholder ph).
Proof.
  intros H. unfold addChatMessage.
  destruct (chatMessages st) as [c|]; [|exact H].
  match goal with |- context [if ?b then _ else _] => destruct b end;
    unfold hideChatPlaceholder; rewrite H; reflexivity.
Qed.

Lemma forEach_placeholder_hidden (messages : list message_payload) :
  forall (st : page) (ph : placeholder),
    chatPlaceholder st = Some (hidden_placeholder ph) ->
    chatPlaceholder (forEach_addChatMessage toLocaleTimeString messages st)
    = Some (hidden_placeholder ph).
Proof.
  induction messages as [|m messages IH]; intros st ph H; [exact H|].
  simpl. apply IH. apply addChatMessage_placeholder_hidden. exact H.
Qed.

(** X9. A chat_history event without messages (no array, or an empty
    one) shows the 'No messages yet' placeholder and leaves the message
    list as it is, also when messages are already shown; a chat_history
    event with messages, and a new_message event, leave the placeholder
    hidden with its content kept. *)
Theorem chat_history_placeholder
    (st : page) (ph : placeholder)
    (m : message_payload) (messages : list message_payload) :
  chatPlaceholder st = Some ph ->
  (forall empty, empty = None \/ empty = Some [] ->
     handle toLocaleTimeString streamId (chat_history empty) st
     = Ok (with_chatPlaceholder
             (Some (Placeholder
                [Elem "div" [("class", lit "text-center text-muted py-4")]
                   [Elem "i" [("class", lit "fas fa-comments fa-2x mb-2")] [];
                    Elem "p" [("class", lit "mb-0")]
                      [Raw (lit "No messages yet. Start the conversation!")]]]
                (lit "block"))) st))
  /\ chatPlaceholder
       (state_of (handle toLocaleTimeString streamId
                    (chat_history (Some (m :: messages))) st))
     = Some (hidden_placeholder ph)
  /\ chatPlaceholder
       (state_of (handle toLocaleTimeString streamId (new_message m) st))
     = Some (hidden_placeholder ph).
Proof.
  intros H. split; [|split].
  - intros empty [-> | ->]; cbn [handle]; unfold showChatPlaceholder;
      rewrite H; reflexivity.
  - cbn [handle state_of]. apply forEach_placeholder_hidden.
    unfold hideChatPlaceholder. rewrite H. reflexivity.
  - cbn [handle state_of]. unfold render, addChatMessage.
    destruct (chatMessages st) as [c|].
    + match goal with |- context [if ?b then _ else _] => destruct b end;
        unfold hideChatPlaceholder; simpl; rewrite H; reflexivity.
    + unfold hideChatPlaceholder. rewrite H. reflexivity.
Qed.

Lemma escape_unit_plain (c : code_unit) :
  special_unit c = false -> escape_unit c = [c].
Proof.
  unfold special_unit, escape_unit. intros H.
  destruct (c =? 38)%N; [discriminate|].
  destruct (c =? 160)%N; [discriminate|].
  destruct (c =? 60)%N; [discriminate|].
  destruct (c =? 62)%N; [discriminate|]. reflexivity.
Qed.

Lemma escape_unit_length (c : code_unit) : 1 <= List.length (escape_unit c).
Proof.
  destruct (escape_unit_cases c)
    as [[_ E]|[[_ E]|[[_ E]|[[_ E]|(_ & _ & _ & _ & E)]]]];
    rewrite E; simpl; lia.
Qed.

(** X10. [escapeHtml] returns a string without any of [&], no-break
    space, [<], [>] as it is; it never returns a shorter string; two
    different strings are never escaped to the same markup; undefined
    and null are escaped to the empty string. *)
Theorem escapeHtml_faithful :
  (forall s, Forall (fun c => special_unit c = false) s ->
             escapeHtml (Str s) = s)
  /\ (forall s, List.length s <= List.length (escapeHtml (Str s)))
  /\ (forall a b, escapeHtml (Str a) = escapeHtml (Str b) -> a = b)
  /\ escapeHtml Undefined = [] /\ escapeHtml Null = [].
Proof.
  assert (P : forall s, Forall (fun c => special_unit c = false) s ->
                        escapeHtml (Str s) = s).
  { intros s H. rewrite escapeHtml_Str. unfold escape_text.
    induction H as [|c s Hc Hs IH]; simpl; [reflexivity|].
    rewrite (escape_unit_plain _ Hc), IH. reflexivity. }
  split; [exact P|split; [|split; [|split; reflexivity]]].
  - intros s. rewrite escapeHtml_Str. unfold escape_text.
    induction s as [|c s IH]; simpl; [lia|].
    rewrite length_app. pose proof (escape_unit_length c). lia.
  - intros a b H.
    rewrite <- (text_of_markup_escape_text a), <- (text_of_markup_escape_text b).
    rewrite <- !escapeHtml_Str, H. reflexivity.
Qed.

End DisplayFacts.

(* ================================================================== *)
(** ** Further properties: the stream room on its error paths *)
(* ================================================================== *)

Section RoomFacts.

Import Stream.

(** X11. The username that [joinStreamRoom] and [leaveStreamRoom] send:
    with a session username both events carry it; without one (a falsy
    [window.sessionUsername]) the join is announced as 'Anonymous_'
    followed by the random suffix and the leave as plain 'Anonymous', so
    the two events of one visit carry different usernames. *)
Theorem anonymous_leave_name_differs
    (rnd : jsstring) (streamId : value) (st : state) (o : outbox) :
  socket st = Some o ->
  truthy streamId = true ->
  exists st1 st2 joined left,
    joinStreamRoom rnd streamId st = Ok st1
    /\ leaveStreamRoom st1 = Ok st2
    /\ socket st2
       = Some (o ++ [Emit "join_stream"
                       [("stream_id", streamId); ("username", joined)];
                     Emit "leave_stream"
                       [("stream_id", streamId); ("username", left)]])
    /\ (truthy (sessionUsername st) = true ->
        joined = sessionUsername st /\ left = sessionUsername st)
    /\ (truthy (sessionUsername st) = false ->
        joined = Str (lit "Anonymous_" ++ rnd)
        /\ left = Str (lit "Anonymous")
        /\ joined <> left).
Proof.
  intros Hs Ht.
  set (st1 := with_socket
                (Some (o ++ [Emit "join_stream"
                               [("stream_id", streamId);
                                ("username",
                                 or_else (sessionUsername st)
                                         (Str (lit "Anonymous_" ++ rnd)))]]))
                (with_currentStreamId streamId st)).
  assert (J : joinStreamRoom rnd streamId st = Ok st1).
  { unfold joinStreamRoom, emit. simpl. rewrite Hs. reflexivity. }
  destruct (first_call_leaves Direct st1 eq_refl Ht) as (st2 & E2 & S2 & _).
  exists st1, st2,
    (or_else (sessionUsername st) (Str (lit "Anonymous_" ++ rnd))),
    (or_else (sessionUsername st) (Str (lit "Anonymous"))).
  split; [exact J|]. split; [exact E2|].
  split; [rewrite S2; simpl; rewrite <- app_assoc; reflexivity|].
  unfold or_else. split; intros Hu; rewrite Hu.
  - auto.
  - split; [reflexivity|]. split; [reflexivity|].
    intros E. injection E as E. discriminate E.
Qed.

Lemma run_calls_throw (cs : list leave_call) (c : leave_call) (st : state) :
  run_call c st = Throw st -> run_calls (c :: cs) st = Throw st.
Proof. intros H. simpl. rewrite H. reflexivity. Qed.

(** X12. While [socket] is null (the state the script ships in, its
    [io()] call being commented out), [joinStreamRoom] throws after it
    has stored the stream id; from then on every [leaveStreamRoom],
    direct or from the beforeunload listener, throws at its emit:
    nothing is sent, the stream id is never cleared and the beforeunload
    listener does not reach the disposal of the player. *)
Theorem null_socket_never_leaves
    (rnd : jsstring) (streamId : value) (st : state)
    (c : leave_call) (cs : list leave_call) :
  socket st = None ->
  truthy streamId = true ->
  joinStreamRoom rnd streamId st = Throw (with_currentStreamId streamId st)
  /\ run_calls (c :: cs) (with_currentStreamId streamId st)
     = Throw (with_currentStreamId streamId st)
  /\ videoPlayer (state_of (run_calls (c :: cs) (with_currentStreamId streamId st)))
     = videoPlayer st.
Proof.
  intros Hs Ht.
  assert (T : run_call c (with_currentStreamId streamId st)
              = Throw (with_currentStreamId streamId st)).
  { destruct c; simpl; unfold beforeunload, leaveStreamRoom, emit; simpl;
      rewrite Ht, Hs; reflexivity. }
  split; [unfold joinStreamRoom, emit; simpl; rewrite Hs; reflexivity|].
  rewrite (@run_calls_throw cs c _ T). split; reflexivity.
Qed.

End RoomFacts.

(* ================================================================== *)
(** ** Further properties: the player *)
(* ================================================================== *)

Section PlayerFacts.

Import Player.

Ltac literal_clash :=
  match goal with
  | H : lit _ = lit _ |- _ => vm_compute in H; discriminate H
  end.

Ltac bands :=
  repeat match goal with
         | |- _ /\ _ => split
         | |- _ <-> _ => split
         end;
  intros X; first [lia | reflexivity | literal_clash].

(** X13. [detectStreamQuality] labels the stream by the band its video
    height falls in, 'Unknown' being the label of the heights that are
    not positive, and writes the label as the text of #streamQuality;
    the width plays no part. *)
Theorem quality_label_bands (st : page) (p : player) (q : node) :
  videoPlayer st = Some p ->
  streamQuality st = Some q ->
  streamQuality (detectStreamQuality st)
  = Some (set_children [Text (quality_of_height (videoHeight p))] q)
  /\ (quality_of_height (videoHeight p) = lit "4K" <-> 2160 <= videoHeight p)%Z
  /\ (quality_of_height (videoHeight p) = lit "1440p"
      <-> 1440 <= videoHeight p < 2160)%Z
  /\ (quality_of_height (videoHeight p) = lit "1080p"
      <-> 1080 <= videoHeight p < 1440)%Z
  /\ (quality_of_height (videoHeight p) = lit "720p"
      <-> 720 <= videoHeight p < 1080)%Z
  /\ (quality_of_height (videoHeight p) = lit "480p"
      <-> 480 <= videoHeight p < 720)%Z
  /\ (quality_of_height (videoHeight p) = lit "360p"
      <-> 360 <= videoHeight p < 480)%Z
  /\ (quality_of_height (videoHeight p) = lit "240p"
      <-> 0 < videoHeight p < 360)%Z
  /\ (quality_of_height (videoHeight p) = lit "Unknown" <-> videoHeight p <= 0)%Z.
Proof.
  intros Hp Hq. split.
  - unfold detectStreamQuality. rewrite Hp, Hq. simpl. f_equal.
    unfold set_textContent. simpl.
    unfold quality_of_height.
    repeat match goal with
           | |- context [if ?b then _ else _] => destruct b
           end; reflexivity.
  - generalize (videoHeight p). intros h. unfold quality_of_height.
    destruct (Z.leb_spec 2160 h);
      [bands|].
    destruct (Z.leb_spec 1440 h);
      [bands|].
    destruct (Z.leb_spec 1080 h);
      [bands|].
    destruct (Z.leb_spec 720 h);
      [bands|].
    destruct (Z.leb_spec 480 h);
      [bands|].
    destruct (Z.leb_spec 360 h);
      [bands|].
    destruct (Z.ltb_spec 0 h); bands.
Qed.

Lemma jsstring_eqb_eq (a : jsstring) :
  forall b, jsstring_eqb a b = true -> a = b.
Proof.
  induction a as [|c a IH]; intros [|d b] H; simpl in H;
    try discriminate; [reflexivity|].
  apply andb_prop in H. destruct H as [H1 H2].
  apply N.eqb_eq in H1. subst d. f_equal. apply IH. exact H2.
Qed.

Lemma strict_eq_refl (v : value) : strict_eq v v = true.
Proof.
  destruct v as [| |b|z|s]; simpl; try reflexivity.
  - destruct b; reflexivity.
  - apply Z.eqb_refl.
  - induction s as [|c s IH]; simpl; [reflexivity|].
    rewrite N.eqb_refl, IH. reflexivity.
Qed.

Lemma showPlayerStatus_body (message : jsstring) (st : page) :
  body (showPlayerStatus message st) = body st
  /\ videoPlayer (showPlayerStatus message st) = videoPlayer st
  /\ isLive (showPlayerStatus message st) = isLive st
  /\ currentStreamId (showPlayerStatus message st) = currentStreamId st.
Proof.
  unfold showPlayerStatus.
  destruct (playerStatus st); [repeat split|].
  destruct (videoContainer st); repeat split.
Qed.

(** X14. [handleStreamStatusUpdate] acts only on an update whose
    stream id is strictly equal to the current one and whose status is
    'offline' while a player exists, or 'live' while the page is not
    live: then it appends exactly one notification, and in the offline
    case pauses the player.  Any other update (another stream, the id as
    a string against a number, an unknown status, offline without a
    player, live on a live page) leaves the page exactly as it was. *)
Theorem status_update_effect (stream_id status : value) (st : page) :
  (status_update_applies stream_id status st = false ->
   handleStreamStatusUpdate stream_id status st = st)
  /\ (status_update_applies stream_id status st = true ->
      List.length (body (handleStreamStatusUpdate stream_id status st))
      = S (List.length (body st))
      /\ currentStreamId (handleStreamStatusUpdate stream_id status st)
         = currentStreamId st
      /\ isLive (handleStreamStatusUpdate stream_id status st) = isLive st
      /\ videoPlayer (handleStreamStatusUpdate stream_id status st)
         = (if strict_eq status (Str (lit "offline"))
            then option_map pause (videoPlayer st)
            else videoPlayer st)).
Proof.
  unfold status_update_applies, handleStreamStatusUpdate.
  destruct (strict_eq stream_id (currentStreamId st)); simpl;
    [|split; [reflexivity | discriminate]].
  destruct (strict_eq status (Str (lit "offline"))) eqn:Eo; simpl.
  - destruct (videoPlayer st) as [p|] eqn:Ep; simpl.
    + split; [discriminate|]. intros _.
      match goal with |- context [showPlayerStatus ?m ?s] =>
        destruct (showPlayerStatus_body m s) as (B & V & L & C) end.
      rewrite B, V, L, C. simpl. rewrite length_app. simpl.
      repeat split; lia.
    + assert (Live : strict_eq status (Str (lit "live")) = false).
      { destruct status as [| |b|z|s]; try reflexivity.
        simpl in Eo. simpl.
        destruct (jsstring_eqb s (lit "live")) eqn:El; [|reflexivity].
        exfalso. apply jsstring_eqb_eq in El. subst s.
        vm_compute in Eo. discriminate. }
      rewrite Live. simpl. split; [reflexivity | discriminate].
  - destruct (strict_eq status (Str (lit "live")) && negb (truthy (isLive st)))
      eqn:El.
    + split; [discriminate|]. intros _.
      simpl. rewrite length_app. simpl. repeat split; lia.
    + split; [reflexivity | discriminate].
Qed.

(** X15. The visibilitychange listener, on a player that carries no
    stale flag: hiding the page leaves the player paused; showing the
    page again brings back exactly the state before the hiding when
    [play()] is granted, so a stream that was playing plays again and a
    stream the viewer had paused stays paused; when [play()] is refused
    the player stays paused and the flag is cleared, so a later showing
    does not try again. *)
Theorem visibility_round_trip (st : page) (p : player) (granted : bool) :
  videoPlayer st = Some p ->
  wasPlayingBeforeHidden p = false ->
  (exists hidden,
     videoPlayer (visibilitychange true granted st) = Some hidden
     /\ paused hidden = true
     /\ wasPlayingBeforeHidden hidden = negb (paused p))
  /\ visibilitychange false true (visibilitychange true granted st) = st
  /\ visibilitychange false false (visibilitychange true granted st)
     = with_videoPlayer (Some (pause p)) st
  /\ visibilitychange false granted
       (visibilitychange false false (visibilitychange true granted st))
     = with_videoPlayer (Some (pause p)) st.
Proof.
  intros Hp Hf. destruct st as [vp cs il ps vc sq bd]. simpl in Hp. subst vp.
  destruct p as [pz fl w h]. simpl in Hf. subst fl.
  destruct pz;
    (split; [eexists; split; [reflexivity|]; split; reflexivity|]);
    (split; [reflexivity|]); split; reflexivity.
Qed.

Lemma health_response_not_live (is_live : value) (st : page) :
  truthy (isLive st) = false -> health_response is_live st = st.
Proof.
  intros H. unfold health_response. rewrite H, andb_false_r. reflexivity.
Qed.

Lemma run_health_not_live (responses : list value) (st : page) :
  truthy (isLive st) = false -> run_health responses st = st.
Proof.
  intros H. unfold run_health.
  induction responses as [|r responses IH]; simpl; [reflexivity|].
  rewrite (health_response_not_live r st H). exact IH.
Qed.

Lemma handleStreamStatusUpdate_body (stream_id status : value) (st : page) :
  List.length (body (handleStreamStatusUpdate stream_id status st))
  <= S (List.length (body st)).
Proof.
  unfold handleStreamStatusUpdate.
  destruct (strict_eq stream_id (currentStreamId st)); [|lia].
  destruct (strict_eq status (Str (lit "offline"))), (videoPlayer st) as [p|];
    try (destruct (strict_eq status (Str (lit "live"))
                   && negb (truthy (isLive st)));
         simpl; rewrite ?length_app; simpl; lia).
  match goal with |- context [showPlayerStatus ?m ?s] =>
    destruct (showPlayerStatus_body m s) as (B & _) end.
  simpl. rewrite length_app, B. simpl. lia.
Qed.

(** X16. The periodic status check announces the end of the stream at
    most once: over any run of responses at most one notification is
    added, because the first response that reports the stream as not
    live on a live page sets [window.isLive] to false, and on a page
    that is not live no response changes anything. *)
Theorem health_check_announces_once (responses : list value) :
  forall st,
    List.length (body (run_health responses st)) <= S (List.length (body st))
    /\ (truthy (isLive st) = false -> run_health responses st = st).
Proof.
  induction responses as [|r responses IH]; intros st.
  - split; [simpl; lia | reflexivity].
  - split; [|apply run_health_not_live].
    unfold run_health. simpl fold_left. fold (run_health responses).
    unfold health_response.
    destruct (negb (truthy r) && truthy (isLive st)) eqn:E.
    + rewrite run_health_not_live by reflexivity.
      simpl. apply handleStreamStatusUpdate_body.
    + apply IH.
Qed.

(** One listener, on a page that has the status line. *)
Lemma on_player_event_status (ev : player_event) (st : page) (s : status) :
  playerStatus st = Some s ->
  exists s',
    playerStatus (on_player_event ev st) = Some s'
    /\ status_attrs s' = status_attrs s
    /\ status_display s' = status_display_after [ev] (status_display s)
    /\ List.length (body (on_player_event ev st))
       = (if is_error_event ev then 1 else 0) + List.length (body st).
Proof.
  intros H.
  destruct ev; simpl; unfold handlePlayerError, showPlayerStatus,
    hidePlayerStatus, detectStreamQuality, showNotification; simpl;
    rewrite ?H; simpl;
    try (eexists; repeat split; reflexivity).
  - eexists. split; [reflexivity|]. split; [reflexivity|].
    split; [reflexivity|]. rewrite length_app. simpl. lia.
  - destruct (videoPlayer st); [destruct (streamQuality st)|]; simpl;
      rewrite ?H; eexists; repeat split; reflexivity.
Qed.

Lemma status_display_after_app (evs evs' : list player_event) (d : jsstring) :
  status_display_after (evs ++ evs') d
  = status_display_after evs' (status_display_after evs d).
Proof.
  revert d. induction evs as [|ev evs IH]; intros d; [reflexivity|].
  destruct ev; simpl; apply IH.
Qed.

(** X17. Over any run of player events on a page that has the status
    line, the line is visible exactly as the last of the events that
    show it (loadstart, waiting, ended, error) or hide it (canplay,
    play, playing) decides; pause and loadedmetadata never change it;
    the element keeps its attributes; and a notification is appended
    for each error event and for nothing else. *)
Theorem status_line_follows_last_event (evs : list player_event) :
  forall (st : page) (s : status),
    playerStatus st = Some s ->
    exists s',
      playerStatus (run_player_events evs st) = Some s'
      /\ status_attrs s' = status_attrs s
      /\ status_display s' = status_display_after evs (status_display s)
      /\ List.length (body (run_player_events evs st))
         = List.length (filter is_error_event evs) + List.length (body st).
Proof.
  induction evs as [|ev evs IH]; intros st s H.
  - exists s. auto.
  - destruct (on_player_event_status ev st H) as (s1 & H1 & A1 & D1 & B1).
    destruct (IH _ s1 H1) as (s2 & H2 & A2 & D2 & B2).
    exists s2. unfold run_player_events in *. simpl fold_left.
    split; [exact H2|]. split; [congruence|].
    split.
    + rewrite D2, D1.
      change (ev :: evs) with ([ev] ++ evs).
      rewrite status_display_after_app. reflexivity.
    + rewrite B2, B1. simpl. destruct (is_error_event ev); simpl; lia.
Qed.

End PlayerFacts.

(* ================================================================== *)
(** ** The further properties on sample pages *)
(* ================================================================== *)

Lemma listeners_emit_only_joins_witness :
  Chat.socket
    (run_events Samples.clock (Number 42)
       [Chat.connect; Chat.new_message (Samples.entry 1); Chat.disconnect;
        Chat.connect]
       (Samples.chat_page true (lit "draft")))
  = Some ([] ++ repeat (Emit "join_stream_chat" [("stream_id", Number 42)])
                       (List.length
                          (filter is_connect
                             [Chat.connect; Chat.new_message (Samples.entry 1);
                              Chat.disconnect; Chat.connect])))
  /\ Chat.chatInput
       (run_events Samples.clock (Number 42)
          [Chat.connect; Chat.new_message (Samples.entry 1); Chat.disconnect;
           Chat.connect]
          (Samples.chat_page true (lit "draft")))
     = Chat.chatInput (Samples.chat_page true (lit "draft")).
Proof.
  apply (@listeners_emit_only_joins Samples.clock (Number 42)
           [Chat.connect; Chat.new_message (Samples.entry 1); Chat.disconnect;
            Chat.connect]
           (Samples.chat_page true (lit "draft")) []).
  reflexivity.
Defined.

Lemma no_send_while_disconnected_witness :
  Chat.isConnectedToChat
    (run_events Samples.clock (Number 42)
       [Chat.join_success (Number 1); Chat.disconnect; Chat.connect]
       (Samples.chat_page false (lit "hi")))
  = false
  /\ Chat.socket
       (state_of
          (Chat.sendChatMessage
             (run_events Samples.clock (Number 42)
                [Chat.join_success (Number 1); Chat.disconnect; Chat.connect]
                (Samples.chat_page false (lit "hi")))))
     = Chat.socket
         (run_events Samples.clock (Number 42)
            [Chat.join_success (Number 1); Chat.disconnect; Chat.connect]
            (Samples.chat_page false (lit "hi"))).
Proof.
  apply (@no_send_while_disconnected Samples.clock (Number 42)
           [Chat.join_success (Number 1); Chat.disconnect; Chat.connect]
           (Samples.chat_page false (lit "hi"))).
  reflexivity.
Defined.

Lemma system_messages_never_evicted_witness :
  (exists c',
     Chat.chatMessages
       (Chat.forEach_addChatMessage Samples.clock (Samples.entries 101)
          MoreSamples.tagged_page) = Some c'
     /\ other_children c'
        = other_children
            [MoreSamples.notice;
             MoreSamples.tagged_message (lit "7") (lit "hello");
             MoreSamples.tagged_message (lit "8") (lit "bye")])
  /\ Chat.chatMessages
       (Chat.addSystemMessage (lit "eve left the chat") MoreSamples.tagged_page)
     = Some ([MoreSamples.notice;
              MoreSamples.tagged_message (lit "7") (lit "hello");
              MoreSamples.tagged_message (lit "8") (lit "bye")]
             ++ [Chat.system_message_element (lit "eve left the chat")])
  /\ other_children
       ([MoreSamples.notice;
         MoreSamples.tagged_message (lit "7") (lit "hello");
         MoreSamples.tagged_message (lit "8") (lit "bye")]
        ++ [Chat.system_message_element (lit "eve left the chat")])
     = other_children
         [MoreSamples.notice;
          MoreSamples.tagged_message (lit "7") (lit "hello");
          MoreSamples.tagged_message (lit "8") (lit "bye")]
       ++ [Chat.system_message_element (lit "eve left the chat")]
  /\ Chat.shown_messages
       (Chat.addSystemMessage (lit "eve left the chat") MoreSamples.tagged_page)
     = Chat.shown_messages MoreSamples.tagged_page.
Proof.
  apply (@system_messages_never_evicted Samples.clock (Samples.entries 101)
           (lit "eve left the chat") MoreSamples.tagged_page).
  reflexivity.
Defined.



Lemma falsy_user_count_shows_zero_witness :
  Chat.chatUserCount
    (state_of (Chat.handle Samples.clock (Number 42) (Chat.join_success Undefined)
                 (Samples.chat_page true [])))
  = Some (set_children [Text (lit "0")] MoreSamples.counter)
  /\ Chat.chatUserCount
       (state_of (Chat.handle Samples.clock (Number 42)
                    (Chat.user_joined
                       (Chat.PresencePayload (Str (lit "bob")) Undefined))
                    (Samples.chat_page true [])))
     = Some (set_children [Text (lit "0")] MoreSamples.counter)
  /\ Chat.chatUserCount
       (state_of (Chat.handle Samples.clock (Number 42)
                    (Chat.user_left
                       (Chat.PresencePayload (Str (lit "bob")) Undefined))
                    (Samples.chat_page true [])))
     = Some (set_children [Text (lit "0")] MoreSamples.counter)
  /\ Chat.chatUserCount
       (state_of (Chat.handle Samples.clock (Number 42) Chat.disconnect
                    (Samples.chat_page true [])))
     = Some (set_children [Text (lit "0")] MoreSamples.counter).
Proof.
  apply (@falsy_user_count_shows_zero Samples.clock (Number 42)
           (Samples.chat_page true []) MoreSamples.counter Undefined
           (Str (lit "bob")));
    reflexivity.
Defined.

Lemma chat_history_placeholder_witness :
  (forall empty, empty = None \/ empty = Some [] ->
     Chat.handle Samples.clock (Number 42) (Chat.chat_history empty)
       MoreSamples.tagged_page
     = Ok (Chat.with_chatPlaceholder
             (Some (Chat.Placeholder
                [Elem "div" [("class", lit "text-center text-muted py-4")]
                   [Elem "i" [("class", lit "fas fa-comments fa-2x mb-2")] [];
                    Elem "p" [("class", lit "mb-0")]
                      [Raw (lit "No messages yet. Start the conversation!")]]]
                (lit "block"))) MoreSamples.tagged_page))
  /\ Chat.chatPlaceholder
       (state_of (Chat.handle Samples.clock (Number 42)
                    (Chat.chat_history (Some (Samples.entry 1 :: Samples.entries 2)))
                    MoreSamples.tagged_page))
     = Some (hidden_placeholder (Chat.Placeholder [] (lit "block")))
  /\ Chat.chatPlaceholder
       (state_of (Chat.handle Samples.clock (Number 42)
                    (Chat.new_message (Samples.entry 1)) MoreSamples.tagged_page))
     = Some (hidden_placeholder (Chat.Placeholder [] (lit "block"))).
Proof.
  apply (@chat_history_placeholder Samples.clock (Number 42)
           MoreSamples.tagged_page (Chat.Placeholder [] (lit "block"))
           (Samples.entry 1) (Samples.entries 2)).
  reflexivity.
Defined.

Lemma anonymous_leave_name_differs_witness :
  exists st1 st2 joined left,
    Stream.joinStreamRoom (lit "k3j9x2m1q") (Number 42)
      (MoreSamples.anonymous_page (Some [])) = Ok st1
    /\ Stream.leaveStreamRoom st1 = Ok st2
    /\ Stream.socket st2
       = Some ([] ++ [Emit "join_stream"
                        [("stream_id", Number 42); ("username", joined)];
                      Emit "leave_stream"
                        [("stream_id", Number 42); ("username", left)]])
    /\ joined = Str (lit "Anonymous_" ++ lit "k3j9x2m1q")
    /\ left = Str (lit "Anonymous")
    /\ joined <> left.
Proof.
  destruct (@anonymous_leave_name_differs (lit "k3j9x2m1q") (Number 42)
              (MoreSamples.anonymous_page (Some [])) [] eq_refl eq_refl)
    as (st1 & st2 & joined & left & J & L & S & _ & A).
  exists st1, st2, joined, left.
  split; [exact J|]. split; [exact L|]. split; [exact S|].
  apply A. reflexivity.
Defined.

Lemma null_socket_never_leaves_witness :
  Stream.joinStreamRoom (lit "k3j9x2m1q") (Number 42)
    (MoreSamples.anonymous_page None)
  = Throw (Stream.with_currentStreamId (Number 42)
             (MoreSamples.anonymous_page None))
  /\ Stream.run_calls [Stream.PageUnload; Stream.Direct]
       (Stream.with_currentStreamId (Number 42) (MoreSamples.anonymous_page None))
     = Throw (Stream.with_currentStreamId (Number 42)
                (MoreSamples.anonymous_page None))
  /\ Stream.videoPlayer
       (state_of
          (Stream.run_calls [Stream.PageUnload; Stream.Direct]
             (Stream.with_currentStreamId (Number 42)
                (MoreSamples.anonymous_page None))))
     = Stream.videoPlayer (MoreSamples.anonymous_page None).
Proof.
  apply (@null_socket_never_leaves (lit "k3j9x2m1q") (Number 42)
           (MoreSamples.anonymous_page None) Stream.PageUnload [Stream.Direct]);
    reflexivity.
Defined.

Lemma quality_label_bands_witness :
  Player.streamQuality (Player.detectStreamQuality MoreSamples.player_page)
  = Some (set_children [Text (lit "1080p")]
            (Elem "span" [("id", lit "streamQuality")] []))
  /\ Player.quality_of_height 1080 = lit "1080p"
  /\ Player.quality_of_height 1079 = lit "720p".
Proof.
  destruct (@quality_label_bands MoreSamples.player_page MoreSamples.playing
              (Elem "span" [("id", lit "streamQuality")] []) eq_refl eq_refl)
    as (W & _ & _ & B & _).
  split; [exact W|]. split; [|reflexivity].
  apply B. simpl. lia.
Defined.

Lemma visibility_round_trip_witness :
  (exists hidden,
     Player.videoPlayer (Player.visibilitychange true true MoreSamples.player_page)
     = Some hidden
     /\ Player.paused hidden = true
     /\ Player.wasPlayingBeforeHidden hidden
        = negb (Player.paused MoreSamples.playing))
  /\ Player.visibilitychange false true
       (Player.visibilitychange true true MoreSamples.player_page)
     = MoreSamples.player_page
  /\ Player.visibilitychange false false
       (Player.visibilitychange true true MoreSamples.player_page)
     = Player.with_videoPlayer (Some (Player.pause MoreSamples.playing))
         MoreSamples.player_page
  /\ Player.visibilitychange false true
       (Player.visibilitychange false false
          (Player.visibilitychange true true MoreSamples.player_page))
     = Player.with_videoPlayer (Some (Player.pause MoreSamples.playing))
         MoreSamples.player_page.
Proof.
  apply (@visibility_round_trip MoreSamples.player_page MoreSamples.playing true);
    reflexivity.
Defined.

Lemma status_line_follows_last_event_witness :
  exists s',
    Player.playerStatus
      (run_player_events
         [Player.loadstart; Player.waiting; Player.error_event (Some (Number 2));
          Player.playing; Player.pause_event]
         (Player.with_playerStatus (Some Player.new_status)
            MoreSamples.player_page))
    = Some s'
    /\ Player.status_attrs s' = Player.status_attrs Player.new_status
    /\ Player.status_display s'
       = status_display_after
           [Player.loadstart; Player.waiting;
            Player.error_event (Some (Number 2)); Player.playing;
            Player.pause_event]
           (Player.status_display Player.new_status)
    /\ List.length
         (Player.body
            (run_player_events
               [Player.loadstart; Player.waiting;
                Player.error_event (Some (Number 2)); Player.playing;
                Player.pause_event]
               (Player.with_playerStatus (Some Player.new_status)
                  MoreSamples.player_page)))
       = List.length
           (filter is_error_event
              [Player.loadstart; Player.waiting;
               Player.error_event (Some (Number 2)); Player.playing;
               Player.pause_event])
         + List.length
             (Player.body
                (Player.with_playerStatus (Some Player.new_status)
                   MoreSamples.player_page)).
Proof.
  apply (@status_line_follows_last_event
           [Player.loadstart; Player.waiting;
            Player.error_event (Some (Number 2)); Player.playing;
            Player.pause_event]
           (Player.with_playerStatus (Some Player.new_status)
              MoreSamples.player_page)
           Player.new_status).
  reflexivity.
Defined.
